(** * stock-client: the lazily decoded [Data] envelope and the [Client]

    A shallow embedding of [src/index.js].  JavaScript objects become
    records, [undefined] becomes [None], thrown exceptions and callback
    invocations become entries of an event log, and the asynchronous
    completions ([zlib.gunzip], [request.get] ...) become explicit
    continuation steps that the event loop runs later. *)

From Stdlib Require Import ZArith NArith List String Ascii Bool Lia DecimalString.
From Stdlib.Strings Require Byte.
Import ListNotations.
Local Open Scope string_scope.

(** ** JavaScript values shared by both classes *)

(** The values [JSON.parse] can return.  Numbers are kept as integers: the
    only thing the code asks of a decoded value is its truthiness. *)
#[warnings="-register-all"] Inductive JSON : Type :=
| JNull
| JBool (b : bool)
| JNumber (n : Z)
| JString (s : string)
| JArray (l : list JSON)
| JObject (l : list (string * JSON)).

(** [!!v] for a JSON value. *)
Definition truthy (v : JSON) : bool :=
  match v with
  | JNull => false
  | JBool b => b
  | JNumber n => negb (Z.eqb n 0)
  | JString s => negb (String.eqb s "")
  | JArray _ => true
  | JObject _ => true
  end.

(** The exceptions the code creates or passes on. *)
Inductive JsError : Type :=
| ZlibError (msg : string)        (* err of zlib.gunzip *)
| SyntaxError (msg : string)      (* thrown by JSON.parse *)
| TypeError (msg : string)
| Error (msg : string)
| AssertionError                  (* thrown by assert(false) *)
| TransportError (code : string). (* err of the request library *)

(** How the evaluation of an expression ends: with a value, or with a
    thrown exception. *)
Inductive Completion (A : Type) : Type :=
| Normal (a : A)
| Abrupt (e : JsError).
Arguments Normal {A} _.
Arguments Abrupt {A} _.

(** A value passed where a callback is expected: [_.isFunction] tells the
    two cases apart; a function is known by its identity. *)
Inductive Fn : Type :=
| NotAFunction
| Function (id : nat).

Definition isFunction (f : Fn) : bool :=
  match f with Function _ => true | NotAFunction => false end.

Definition Buffer : Type := list Byte.byte.

(** [buff.toString('ascii')]: every byte with its high bit cleared. *)
Definition ascii7 (b : Byte.byte) : ascii :=
  ascii_of_N (N.land (Byte.to_N b) 127).

Definition toString_ascii (b : Buffer) : string :=
  string_of_list_ascii (map ascii7 b).

(** A [moment] value: the validity flag and the calendar fields that
    [format] reads. *)
Record Moment : Type := mkMoment {
  m_valid : bool;
  m_year : Z;
  m_month : Z;    (* 1..12 *)
  m_date : Z;     (* day of month *)
  m_hours : Z;    (* 0..23 *)
  m_minutes : Z;
  m_seconds : Z
}.

(** ** lodash [_.upperCase] on ASCII strings

    [upperCase] is [createCompounder]: the apostrophes are removed, the
    string is cut into words by [_.words], and the upper-cased words are
    joined by single spaces.  [_.words] uses two regular expressions; they
    are transcribed below for strings of code points 0..127 ([asciiOnly]),
    on which deburring changes nothing, together with the backtracking
    matcher that gives them the JavaScript meaning (leftmost match,
    alternatives in order, greedy repetition). *)
Module Lodash.

Inductive re : Type :=
| Cls (p : ascii -> bool)
| Seq (a b : re)
| Alt (a b : re)
| Opt (a : re)
| Plus (a : re)
| Ahead (a : re)      (* (?=a) *)
| NAhead (a : re)     (* (?!a) *)
| Eos.                (* $ *)

Definition orElse {A} (x y : option A) : option A :=
  match x with Some _ => x | None => y end.

(** [rx fuel r s k]: match [r] at the head of [s], then hand the rest to
    [k]; [None] makes the matcher backtrack. *)
Fixpoint rx (fuel : nat) (r : re) (s : list ascii)
         (k : list ascii -> option (list ascii)) : option (list ascii) :=
  match fuel with
  | O => None
  | S fuel =>
    match r with
    | Cls p =>
      match s with
      | c :: s' => if p c then k s' else None
      | [] => None
      end
    | Seq a b => rx fuel a s (fun s1 => rx fuel b s1 k)
    | Alt a b => orElse (rx fuel a s k) (rx fuel b s k)
    | Opt a => orElse (rx fuel a s k) (k s)
    | Plus a =>
      rx fuel a s (fun s1 =>
        orElse (if Nat.ltb (List.length s1) (List.length s)
                then rx fuel (Plus a) s1 k else None)
               (k s1))
    | Ahead a =>
      match rx fuel a s (fun s1 => Some s1) with
      | Some _ => k s
      | None => None
      end
    | NAhead a =>
      match rx fuel a s (fun s1 => Some s1) with
      | Some _ => None
      | None => k s
      end
    | Eos => match s with [] => k s | _ :: _ => None end
    end
  end.

Definition exec (r : re) (s : list ascii) : option (list ascii) :=
  rx (2 * List.length s + 64) r s (fun rest => Some rest).

(** [string.match(r)] with the [g] flag: all matches, left to right. *)
Fixpoint match_all (n : nat) (r : re) (s : list ascii) : list (list ascii) :=
  match n with
  | O => []
  | S n =>
    match s with
    | [] => []
    | _ :: s' =>
      match exec r s with
      | Some rest =>
        let w := firstn (List.length s - List.length rest) s in
        match w with
        | [] => match_all n r s'
        | _ :: _ => w :: match_all n r rest
        end
      | None => match_all n r s'
      end
    end
  end.

(** [r.test(string)]: a match at some position. *)
Fixpoint test (r : re) (s : list ascii) : bool :=
  match exec r s with
  | Some _ => true
  | None => match s with [] => false | _ :: s' => test r s' end
  end.

Definition between (lo hi : N) (c : ascii) : bool :=
  (N.leb lo (N_of_ascii c) && N.leb (N_of_ascii c) hi)%bool.

Definition isLower := between 97 122.
Definition isUpper := between 65 90.
Definition isDigit := between 48 57.
Definition isAlpha c := (isLower c || isUpper c)%bool.
Definition isSpace c := N.eqb (N_of_ascii c) 32.
(* \x00-\x2f \x3a-\x40 \x5b-\x60 \x7b-\x7f *)
Definition isBreak c :=
  (between 0 47 c || between 58 64 c || between 91 96 c || between 123 127 c)%bool.

Definition rsLower := Cls isLower.
Definition rsUpper := Cls isUpper.
Definition rsBreak := Cls isBreak.
Definition rsDigits := Plus (Cls isDigit).

(* /[^\x00-\x2f\x3a-\x40\x5b-\x60\x7b-\x7f]+/g *)
Definition reAsciiWord : re := Plus (Cls (fun c => negb (isBreak c))).

(* /[a-z][A-Z]|[A-Z]{2}[a-z]|[0-9][a-zA-Z]|[a-zA-Z][0-9]|[^a-zA-Z0-9 ]/ *)
Definition reHasUnicodeWord : re :=
  Alt (Seq (Cls isLower) (Cls isUpper))
 (Alt (Seq (Cls isUpper) (Seq (Cls isUpper) (Cls isLower)))
 (Alt (Seq (Cls isDigit) (Cls isAlpha))
 (Alt (Seq (Cls isAlpha) (Cls isDigit))
      (Cls (fun c => negb (isAlpha c || isDigit c || isSpace c)))))).

(** A character of the text of a pattern, and a run of them. *)
Definition chr (c : ascii) : re := Cls (Ascii.eqb c).

Fixpoint lit (s : string) : re :=
  match s with
  | EmptyString => Opt Eos
  | String c EmptyString => chr c
  | String c s' => Seq (chr c) (lit s')
  end.

Definition isWordChar c := (isAlpha c || isDigit c || Ascii.eqb c "_")%bool.
Definition is123 := between 49 51.

(* \d*: as many digits as possible, then fewer, then none *)
Definition rsDigitsOpt := Opt (Plus (Cls isDigit)).

(* \b where the character before is a letter, as it is after an ordinal
   suffix: no word character follows *)
Definition rsWordEnd := NAhead (Cls isWordChar).

(* (?:1st|2nd|3rd|(?![123])\dth)(?=\b|[A-Z_]): what an ordinal has after
   its leading digits *)
Definition ordTail (st nd rd th : string) (next : ascii -> bool) : re :=
  Seq (Alt (lit st) (Alt (lit nd) (Alt (lit rd)
           (Seq (NAhead (Cls is123)) (Seq (Cls isDigit) (lit th))))))
      (Ahead (Alt rsWordEnd (Cls next))).

(* \d*(?:1st|2nd|3rd|(?![123])\dth)(?=\b|[A-Z_]) and its upper-case twin
   \d*(?:1ST|2ND|3RD|(?![123])\dTH)(?=\b|[a-z_]) *)
Definition rsOrd (st nd rd th : string) (next : ascii -> bool) : re :=
  Seq rsDigitsOpt (ordTail st nd rd th next).

Definition rsOrdLower : re :=
  rsOrd "1st" "2nd" "3rd" "th" (fun c => (isUpper c || Ascii.eqb c "_")%bool).
Definition rsOrdUpper : re :=
  rsOrd "1ST" "2ND" "3RD" "TH" (fun c => (isLower c || Ascii.eqb c "_")%bool).

(* the lookaheads (?=Break|Upper|$) and (?=Break|Upper Lower|$) *)
Definition look1 : re := Ahead (Alt rsBreak (Alt rsUpper Eos)).
Definition look2 : re := Ahead (Alt rsBreak (Alt (Seq rsUpper rsLower) Eos)).

(* the first four alternatives of reUnicodeWord:
   U?L+(?=Break|U|$), U+(?=Break|UL|$), U?L+, U+ *)
Definition alt1 : re := Seq (Opt rsUpper) (Seq (Plus rsLower) look1).
Definition alt2 : re := Seq (Plus rsUpper) look2.
Definition alt3 : re := Seq (Opt rsUpper) (Plus rsLower).
Definition alt4 : re := Plus rsUpper.

(* On ASCII input without apostrophes rsMisc matches nothing, the optional
   contractions are empty and there is no emoji, which leaves:
     U?L+(?=Break|U|$) | U+(?=Break|UL|$) | U?L+ | U+
     | rsOrdUpper | rsOrdLower | \d+                                  *)
Definition reUnicodeWord : re :=
  Alt alt1 (Alt alt2 (Alt alt3 (Alt alt4
 (Alt rsOrdUpper (Alt rsOrdLower rsDigits))))).


Definition words (s : list ascii) : list (list ascii) :=
  if test reHasUnicodeWord s
  then match_all (S (List.length s)) reUnicodeWord s
  else match_all (S (List.length s)) reAsciiWord s.

(* string.replace(reApos, ''): the apostrophes go *)
Definition dropApos (s : list ascii) : list ascii :=
  filter (fun c => negb (N.eqb (N_of_ascii c) 39)) s.

Definition toUpperChar (c : ascii) : ascii :=
  if isLower c then ascii_of_N (N_of_ascii c - 32) else c.

(** [String.prototype.toUpperCase] on ASCII. *)
Definition toUpperCase (s : string) : string :=
  string_of_list_ascii (map toUpperChar (list_ascii_of_string s)).

(** [_.upperCase]: reduce over the words with
    [result + (index ? ' ' : '') + word.toUpperCase()]. *)
Definition upperCase (s : string) : string :=
  String.concat " "
    (map (fun w => toUpperCase (string_of_list_ascii w))
         (words (dropApos (list_ascii_of_string s)))).

(** *** Vocabulary for the matcher *)

(** A continuation of the matcher, and the one [exec] starts with. *)
Definition K : Type := list ascii -> option (list ascii).

(** [rest] does not go on with a character of the class [p]. *)
Definition stops (p : ascii -> bool) (rest : list ascii) : Prop :=
  match rest with [] => True | c :: _ => p c = false end.




End Lodash.

(** ** The [Data] envelope (src/index.js, class Data) *)
Module Data.

(** [this._payload]: [buff] is absent after [delete], [decoded] is
    [undefined] until the first successful decode. *)
Record Payload : Type := mkPayload {
  buff : option Buffer;
  decoded : option JSON
}.

Record Envelope : Type := mkData {
  _when : Moment;
  _tickers : list string;
  _payload : Payload
}.

(** The JSON body the stock server sends. *)
Record Wire : Type := mkWire {
  w_when : string;
  w_tickers : list string;
  w_payload : string
}.

(** What an observer sees of the envelope at work. *)
Inductive Event : Type :=
| Gunzip (b : Buffer)                                   (* zlib.gunzip(b, ...) *)
| Next (f : nat) (err : option JsError) (v : option JSON) (* next(err, v) *)
| Throw (e : JsError).                                  (* an exception leaves the code *)

(** A started [zlib.gunzip]: the buffer it was given and the [next] its
    completion callback closes over. *)
Record Job : Type := mkJob {
  job_buff : Buffer;
  job_next : Fn
}.

(** The envelope, the decompressions in flight and the events so far. *)
Record World : Type := mkWorld {
  self : Envelope;
  pending : list Job;
  log : list Event
}.

Definition emit (es : list Event) (w : World) : World :=
  mkWorld (self w) (pending w) (log w ++ es).

Definition set_payload (p : Payload) (w : World) : World :=
  mkWorld (mkData (_when (self w)) (_tickers (self w)) p) (pending w) (log w).

(** [if (_.isFunction(next)) next(err); else throw err;] *)
Definition fail (next : Fn) (e : JsError) : list Event :=
  match next with
  | Function f => [Next f (Some e) None]
  | NotAFunction => [Throw e]
  end.

(** [if (_.isFunction(next)) next(null, v);] *)
Definition succeed (next : Fn) (v : JSON) : list Event :=
  match next with
  | Function f => [Next f None (Some v)]
  | NotAFunction => []
  end.

Definition no_payload : JsError :=
  TypeError "No payload buffer or decoded value?".

Section WithNode.

(** The library calls of the class.  [from_base64] is
    [new Buffer(s, 'base64')] and [moment] is the moment constructor:
    both return a value for every string.  [gunzip] and [JSON_parse]
    return their error on the left. *)
Variable moment : string -> Moment.
Variable from_base64 : string -> Buffer.
Variable gunzip : Buffer -> JsError + Buffer.
Variable JSON_parse : string -> JsError + JSON.

(** [constructor(json)] *)
Definition new (json : Wire) : Envelope :=
  mkData (moment (w_when json))
         (map Lodash.upperCase (w_tickers json))
         (mkPayload (Some (from_base64 (w_payload json))) None).

(** [new Data(json)] as an expression: the body of the constructor has
    no [throw] and calls nothing that rejects a string. *)
Definition construct (json : Wire) : Completion Envelope := Normal (new json).

(** [get when()] and [get tickers()] *)
Definition when (d : Envelope) : Moment := _when d.

(** [payload(next)] up to the point where it returns: with a buffer at
    hand the decompression is only started. *)
Definition payload (next : Fn) (w : World) : World :=
  match buff (_payload (self w)) with
  | Some b =>
    mkWorld (self w) (pending w ++ [mkJob b next]) (log w ++ [Gunzip b])
  | None =>
    match decoded (_payload (self w)) with
    | Some v =>
      if truthy v then emit (succeed next v) w
      else emit (fail next no_payload) w
    | None => emit (fail next no_payload) w
    end
  end.

(** The callback given to [zlib.gunzip], run when the job is done.  An
    exception of [JSON.parse] leaves the callback before the
    assignment. *)
Definition gunzip_done (j : Job) (w : World) : World :=
  match gunzip (job_buff j) with
  | inl err => emit (fail (job_next j) err) w
  | inr out =>
    match JSON_parse (toString_ascii out) with
    | inl e => emit [Throw e] w
    | inr v =>
      emit (succeed (job_next j) v) (set_payload (mkPayload None (Some v)) w)
    end
  end.

(** One turn of the program: a call of [payload], or the completion of
    the [i]-th decompression in flight. *)
Inductive Op : Type :=
| Call (next : Fn)
| Done (i : nat).

Definition remove_nth {A} (i : nat) (l : list A) : list A :=
  firstn i l ++ skipn (S i) l.

Definition step (o : Op) (w : World) : World :=
  match o with
  | Call next => payload next w
  | Done i =>
    match nth_error (pending w) i with
    | Some j =>
      gunzip_done j (mkWorld (self w) (remove_nth i (pending w)) (log w))
    | None => w
    end
  end.

Definition run (ops : list Op) (w : World) : World :=
  fold_left (fun w o => step o w) ops w.

Definition init (json : Wire) : World := mkWorld (new json) [] [].

(** The two payload states of the specification. *)
Inductive State : Type := Compressed | Decoded.

(** Which of the two is present; [None] when both or neither are. *)
Definition state_of (p : Payload) : option State :=
  match buff p, decoded p with
  | Some _, None => Some Compressed
  | None, Some _ => Some Decoded
  | _, _ => None
  end.

Definition state (w : World) : option State := state_of (_payload (self w)).

(** The states after each prefix of [ops], the initial one first. *)
Fixpoint states (ops : list Op) (w : World) : list (option State) :=
  state w ::
  match ops with
  | [] => []
  | o :: ops' => states ops' (step o w)
  end.

Definition gunzips (w : World) : nat :=
  List.length (filter (fun e => match e with Gunzip _ => true | _ => false end) (log w)).

End WithNode.

End Data.

(** ** Node's [querystring] and [url.format], moment's [format] *)
Module Node.

(** ['' + n] for an integer. *)
Definition dec (n : Z) : string :=
  match n with
  | Zneg p => "-" ++ NilZero.string_of_uint (Pos.to_uint p)
  | _ => NilZero.string_of_uint (N.to_uint (Z.to_N n))
  end.

(** A query object: the keys in insertion order, [None] for a key whose
    value is [undefined]. *)
Definition Query : Type := list (string * option string).

Definition hexDigit (n : N) : ascii :=
  if N.ltb n 10 then ascii_of_N (48 + n) else ascii_of_N (55 + n).

(** The characters [querystring.escape] leaves alone:
    A-Z a-z 0-9 - _ . ! ~ * ' ( ) *)
Definition unreserved (c : ascii) : bool :=
  (Lodash.isAlpha c || Lodash.isDigit c ||
   existsb (N.eqb (N_of_ascii c)) [45; 95; 46; 33; 126; 42; 39; 40; 41]%N)%bool.

Fixpoint escape (s : string) : string :=
  match s with
  | EmptyString => EmptyString
  | String c s' =>
    if unreserved c then String c (escape s')
    else String "%" (String (hexDigit (N.div (N_of_ascii c) 16))
                    (String (hexDigit (N.modulo (N_of_ascii c) 16)) (escape s')))
  end.

(** [stringifyPrimitive]: [undefined] becomes the empty string. *)
Definition stringifyPrimitive (v : option string) : string :=
  match v with Some s => s | None => "" end.

(** [querystring.stringify(obj)]: every own key gives [key=value]. *)
Definition stringify (q : Query) : string :=
  String.concat "&"
    (map (fun kv => escape (fst kv) ++ "=" ++ escape (stringifyPrimitive (snd kv))) q).

(** The part of a parsed url that [url.format] prints: [origin] is the
    protocol, the slashes, the auth and the host as they are printed and
    [hash] the fragment; the code overwrites [pathname] and [query]. *)
Record Url : Type := mkUrl {
  origin : string;
  pathname : option string;
  search : option string;
  query : option Query;
  hash : string
}.

Definition truthy_str (s : option string) : bool :=
  match s with
  | Some s => negb (String.eqb s "")
  | None => false
  end.

Definition startsWith (c : ascii) (s : string) : bool :=
  match s with String d _ => Ascii.eqb c d | EmptyString => false end.

(* pathname.replace(/[?#]/g, encodeURIComponent) *)
Fixpoint escapePath (s : string) : string :=
  match s with
  | EmptyString => EmptyString
  | String c s' =>
    if (Ascii.eqb c "?" || Ascii.eqb c "#")%bool
    then escape (String c EmptyString) ++ escapePath s'
    else String c (escapePath s')
  end.

(* search.replace('#', '%23'): the first one only *)
Fixpoint escapeHash (s : string) : string :=
  match s with
  | EmptyString => EmptyString
  | String c s' =>
    if Ascii.eqb c "#" then "%23" ++ s' else String c (escapeHash s')
  end.

(** [url.format(u)] for a url with slashes (http and https). *)
Definition format (u : Url) : string :=
  let pathname := match pathname u with Some p => p | None => "" end in
  let query := match query u with Some q => stringify q | None => "" end in
  let search :=
    if truthy_str (search u) then stringifyPrimitive (search u)
    else if negb (String.eqb query "") then "?" ++ query
    else "" in
  let pathname :=
    if (negb (String.eqb pathname "") && negb (startsWith "/" pathname))%bool
    then "/" ++ pathname else pathname in
  let search :=
    if (negb (String.eqb search "") && negb (startsWith "?" search))%bool
    then "?" ++ search else search in
  origin u ++ escapePath pathname ++ escapeHash search ++ hash u.

(** What the receiver of a url reads: the text between [?] and [#], cut
    at every [&], each piece cut at its first [=]. *)
Fixpoint after (c : ascii) (s : string) : option string :=
  match s with
  | EmptyString => None
  | String d s' => if Ascii.eqb c d then Some s' else after c s'
  end.

Fixpoint before (c : ascii) (s : string) : string :=
  match s with
  | EmptyString => EmptyString
  | String d s' => if Ascii.eqb c d then EmptyString else String d (before c s')
  end.

Fixpoint split (c : ascii) (s : string) : list string :=
  match s with
  | EmptyString => [EmptyString]
  | String d s' =>
    if Ascii.eqb c d then EmptyString :: split c s'
    else match split c s' with
         | [] => [String d EmptyString]
         | w :: ws => String d w :: ws
         end
  end.

Definition hexValue (c : ascii) : option N :=
  let n := N_of_ascii c in
  if Lodash.isDigit c then Some (n - 48)%N
  else if Lodash.between 65 70 c then Some (n - 55)%N
  else if Lodash.between 97 102 c then Some (n - 87)%N
  else None.

(** [querystring.unescape]: every [%XX] becomes the byte it stands for. *)
Fixpoint unescape (s : string) : string :=
  match s with
  | EmptyString => EmptyString
  | String c s' =>
    if Ascii.eqb c "%" then
      match s' with
      | String a (String b r) =>
        match hexValue a, hexValue b with
        | Some x, Some y => String (ascii_of_N (16 * x + y)) (unescape r)
        | _, _ => String c (unescape s')
        end
      | _ => String c (unescape s')
      end
    else String c (unescape s')
  end.

Definition query_params (url : string) : list (string * string) :=
  match after "?" url with
  | None => []
  | Some q =>
    map (fun kv => (unescape (before "=" kv),
                    unescape (stringifyPrimitive (after "=" kv))))
        (filter (fun kv => negb (String.eqb kv "")) (split "&" (before "#" q)))
  end.

Definition query_keys (url : string) : list string := map fst (query_params url).

(** Base64 text as RFC 4648 defines it: groups of four characters of the
    alphabet, the last group padded with one or two [=]. *)
Definition b64char (c : ascii) : bool :=
  (Lodash.isAlpha c || Lodash.isDigit c ||
   N.eqb (N_of_ascii c) 43 || N.eqb (N_of_ascii c) 47)%bool.

Fixpoint b64groups (l : list ascii) : bool :=
  match l with
  | [] => true
  | [a; b; c; d] =>
    (b64char a && b64char b &&
     ((b64char c && (b64char d || Ascii.eqb d "=")) ||
      (Ascii.eqb c "=" && Ascii.eqb d "=")))%bool
  | a :: b :: c :: d :: r =>
    (b64char a && b64char b && b64char c && b64char d && b64groups r)%bool
  | _ => false
  end.

Definition valid_base64 (s : string) : bool := b64groups (list_ascii_of_string s).

(** moment's [zeroFill(number, targetLength)]. *)
Definition zeroFill (n : Z) (targetLength : nat) : string :=
  let absNumber := dec (Z.abs n) in
  let zerosToFill := (targetLength - String.length absNumber)%nat in
  (if Z.leb 0 n then "" else "-") ++
  string_of_list_ascii (repeat "0"%char zerosToFill) ++ absNumber.

(** [m.format('YYYY-MM-DD[T]hh:mm:ss')]: [hh] is the hour of the
    twelve-hour clock, [hours % 12 || 12]. *)
Definition format_moment (m : Moment) : string :=
  if m_valid m then
    let h12 := if Z.eqb (Z.modulo (m_hours m) 12) 0 then 12%Z
               else Z.modulo (m_hours m) 12 in
    zeroFill (m_year m) 4 ++ "-" ++ zeroFill (m_month m) 2 ++ "-" ++
    zeroFill (m_date m) 2 ++ "T" ++ zeroFill h12 2 ++ ":" ++
    zeroFill (m_minutes m) 2 ++ ":" ++ zeroFill (m_seconds m) 2
  else "Invalid date".

End Node.

(** ** The [Client] (src/index.js, class Client) *)
Module Client.

Import Node.

(** [this._handlers]: the three handler slots. *)
Record Handlers : Type := mkHandlers {
  error : Fn;
  status : Fn;
  data : Fn
}.

(** The fields of a client that the methods read or write.  [_local] is
    the object built by the constructor, given by its fields. *)
Record Instance : Type := mkClient {
  _servUrl : Url;
  _local : list (string * JSON);
  _secret : option string;
  timeout : option Z;
  _handlers : Handlers
}.

Inductive Method : Type := GET | PUT | DELETE.

(** The options handed to the request library ([uri] and [url] name the
    same option). *)
Record Request : Type := mkRequest {
  r_method : Method;
  r_url : string;
  r_json : option JSON;
  r_timeout : option Z
}.

(** What the request library passes to its callback: [err], or the
    response with its status code and body. *)
Inductive Reply : Type :=
| Failed (err : JsError)
| Answered (statusCode : Z) (body : string).

(** An inbound express request: the sender and the parsed body. *)
Record Req (B : Type) : Type := mkReq {
  ip : string;
  body : B
}.
Arguments mkReq {B} _ _.
Arguments ip {B} _.
Arguments body {B} _.

(** The express response object of an inbound request. *)
Record Res : Type := mkRes { statusCode : Z }.

Inductive Effect : Type :=
| Callback (f : nat) (err : option JsError)           (* next(err) *)
| Send (r : Request)                              (* request.put/get/del(r, ...) *)
| Raise (e : JsError)                             (* an exception leaves the code *)
| Respond (code : Z) (b : JSON)                   (* resp.json(b) *)
| OnData (h : nat) (d : Data.Envelope) (from : string)   (* handlers.data(d, req) *)
| OnStatus (h : nat) (signal : option string) (from : string)
| OnError (h : nat) (e : JsError).                (* handlers.error(e) *)

(** [_remoteUrl(path, query)]: [_.extend] writes both fields into
    [this._servUrl] itself, then the url is printed. *)
Definition _remoteUrl (path : string) (q : option Query) (c : Instance) : string * Instance :=
  let u := mkUrl (origin (_servUrl c)) (Some path) (search (_servUrl c)) q
                 (hash (_servUrl c)) in
  (format u, mkClient u (_local c) (_secret c) (timeout c) (_handlers c)).

(** The value of a JSON property that may be [undefined]: the key is left
    out of the body then. *)
Definition prop (k : string) (v : option JSON) : list (string * JSON) :=
  match v with Some x => [(k, x)] | None => [] end.

(** [if (_.isFunction(next)) next(err); else if (!!err) throw err;] *)
Definition report (next : Fn) (err : option JsError) : list Effect :=
  match next with
  | Function f => [Callback f err]
  | NotAFunction =>
    match err with Some e => [Raise e] | None => [] end
  end.

Definition newline : string := String (ascii_of_N 10) EmptyString.

Section WithLibraries.

(** [util.inspect] of a response body. *)
Variable inspect : string -> string.
(** The library calls of the [Data] constructor. *)
Variable moment : string -> Moment.
Variable from_base64 : string -> Buffer.

(** [connect(next)]: the request that is sent. *)
Definition connect (c : Instance) : list Effect * Instance :=
  let (uri, c') := _remoteUrl "/register" None c in
  let href := if truthy (JObject (_local c')) then Some (JObject (_local c')) else None in
  ([Send (mkRequest PUT uri
            (Some (JObject (prop "href" href ++ [("verb", JString "POST")])%list))
            (timeout c'))], c').

(** The callback of [request.put] in [connect]. *)
Definition connect_reply (uri : string) (next : Fn) (r : Reply) : list Effect :=
  let err :=
    match r with
    | Failed e => Some e
    | Answered code b =>
      if negb (Z.eqb code 200)
      then Some (Error ("Bad status code: " ++ dec code ++ newline ++
                        "Error: " ++ uri ++ ", " ++ inspect b))
      else None
    end in
  report next err.

(** [disconnect(next)]: the request that is sent. *)
Definition disconnect (c : Instance) : list Effect * Instance :=
  let (uri, c') := _remoteUrl "/register" None c in
  ([Send (mkRequest DELETE uri
            (Some (JObject (prop "href" (Some (JObject (_local c'))) ++
                            [("verb", JString "POST")])%list))
            (timeout c'))], c').

(** The callback of [request.del] in [disconnect]: [err => ...] looks
    at the transport error only. *)
Definition disconnect_reply (next : Fn) (r : Reply) : list Effect :=
  let err := match r with Failed e => Some e | Answered _ _ => None end in
  report next err.

Definition no_secret : JsError :=
  Error "Secret is not specified, server requests are unavailable.".

(** The guard that opens [start], [stop] and [restart]:
    [None] when it throws, otherwise the events before the code goes on
    (there is no [return] after [next(err)]). *)
Definition guard (next : Fn) (c : Instance) : option (list Effect) :=
  if negb (truthy_str (_secret c)) then
    match next with
    | Function f => Some [Callback f (Some no_secret)]
    | NotAFunction => None
    end
  else Some [].

(** The shared rest of the three commands: print the url, send the GET. *)
Definition command (path : string) (q : Query) (next : Fn) (c : Instance)
  : list Effect * Instance :=
  match guard next c with
  | None => ([Raise no_secret], c)
  | Some evs =>
    let (uri, c') := _remoteUrl path (Some q) c in
    ((evs ++ [Send (mkRequest GET uri None (timeout c'))])%list, c')
  end.

Definition start (next : Fn) (c : Instance) : list Effect * Instance :=
  command "/serv/start" [("token", _secret c)] next c.

Definition stop (next : Fn) (c : Instance) : list Effect * Instance :=
  command "/serv/stop" [("token", _secret c)] next c.

(** The second argument of [restart]: nothing, a moment, or some other
    value. *)
Inductive When : Type :=
| Absent
| AMoment (m : Moment)
| Other.

(** [moment.isMoment(when) ? when.format(...) : undefined] *)
Definition date_of (when : When) : option string :=
  match when with
  | AMoment m => Some (format_moment m)
  | _ => None
  end.

Definition restart_query (when : When) (c : Instance) : Query :=
  [("token", _secret c); ("date", date_of when)].

Definition restart (next : Fn) (when : When) (c : Instance) : list Effect * Instance :=
  command "/serv/reset" (restart_query when c) next c.

(** The callback of [request.get] in the three commands. *)
Definition command_reply (next : Fn) (r : Reply) : list Effect :=
  let err :=
    match r with
    | Failed e => Some e
    | Answered code b =>
      if negb (Z.eqb code 200)
      then Some (Error ("Bad status code: " ++ dec code ++ newline ++
                        "Error: " ++ b))
      else None
    end in
  report next err.

(** The first argument of [on]: a string, a [String] object, or
    anything else.  [_.isString] accepts the first two, the [case]
    labels of the [switch] compare with [===]. *)
Inductive Name : Type :=
| Str (s : string)
| StrObject (s : string)
| NotAString.

Definition isString (e : Name) : bool :=
  match e with NotAString => false | _ => true end.

Definition is_case (label : string) (e : Name) : bool :=
  match e with Str s => String.eqb s label | _ => false end.

(* 'Unknown event: ' + event *)
Definition name_text (e : Name) : string :=
  match e with Str s => s | StrObject s => s | NotAString => "" end.

Definition set_handlers (h : Handlers) (c : Instance) : Instance :=
  mkClient (_servUrl c) (_local c) (_secret c) (timeout c) h.

(** Calling a handler slot: a value that is no function cannot be
    called. *)
Definition invoke (h : Fn) (e : nat -> Effect) : list Effect :=
  match h with
  | Function f => [e f]
  | NotAFunction => [Raise (TypeError "handler is not a function")]
  end.

(** [on(event, handler)] *)
Definition on (event : Name) (handler : Fn) (c : Instance) : list Effect * Instance :=
  if (isString event && isFunction handler)%bool then
    let h := _handlers c in
    if is_case "error" event then
      ([], set_handlers (mkHandlers handler (status h) (data h)) c)
    else if is_case "status" event then
      ([], set_handlers (mkHandlers (error h) handler (data h)) c)
    else if is_case "data" event then
      ([], set_handlers (mkHandlers (error h) (status h) handler) c)
    else
      (invoke (error h)
         (fun f => OnError f (Error ("Unknown event: " ++ name_text event))), c)
  else ([Raise AssertionError], c).

Definition success : JSON := JObject [("success", JBool true)].

(** [resp.json(b)]: the body goes out with the status code of [resp]. *)
Definition json (resp : Res) (b : JSON) : Effect := Respond (statusCode resp) b.

(** [app.post('/data', (req, resp) => ...)] *)
Definition post_data (c : Instance) (req : Req Data.Wire) (resp : Res) : list Effect :=
  json resp success ::
  match Data.construct moment from_base64 (body req) with
  | Normal d => invoke (data (_handlers c)) (fun f => OnData f d (ip req))
  | Abrupt e => [Raise e]
  end.

(** [app.post('/signal', (req, resp) => ...)]: the body is given by
    its [signal] property. *)
Definition post_signal (c : Instance) (req : Req (option string)) (resp : Res) : list Effect :=
  json resp success ::
  invoke (status (_handlers c)) (fun f => OnStatus f (body req) (ip req)).

(** An inbound POST as express routes it: a fresh response object has
    status code 200. *)
Inductive Inbound : Type :=
| PostData (req : Req Data.Wire)
| PostSignal (req : Req (option string)).

Definition fresh : Res := mkRes 200.

Definition handle (c : Instance) (i : Inbound) : list Effect :=
  match i with
  | PostData req => post_data c req fresh
  | PostSignal req => post_signal c req fresh
  end.

(** A whole outbound exchange: the events of the call, then, for every
    request that was sent, the events of its callback on the reply. *)
Definition sent (es : list Effect) : list Request :=
  flat_map (fun e => match e with Send r => [r] | _ => [] end) es.

Definition exchange (call : list Effect) (reply : list Effect) : list Effect :=
  (call ++ match sent call with [] => [] | _ :: _ => reply end)%list.

(** The invocations of the callback [f] among the events. *)
Definition calls (f : nat) (es : list Effect) : list (option JsError) :=
  flat_map (fun e => match e with
                     | Callback g err => if Nat.eqb f g then [err] else []
                     | _ => []
                     end) es.

End WithLibraries.

End Client.

(** ** Test doubles for the libraries

    Concrete stand-ins for [moment], [new Buffer(_, 'base64')],
    [zlib.gunzip], [JSON.parse] and [util.inspect], used to run the model
    on concrete envelopes.  Each agrees with its library on the inputs
    used below. *)
Module Stub.

Definition digit (c : ascii) : option Z :=
  if Lodash.isDigit c then Some (Z.of_N (N_of_ascii c - 48)) else None.

Fixpoint number (acc : Z) (l : list ascii) : option Z :=
  match l with
  | [] => Some acc
  | c :: l' =>
    match digit c with
    | Some d => number (10 * acc + d) l'
    | None => None
    end
  end.

Definition invalid : Moment := mkMoment false 0 0 0 0 0 0.

Definition all_some (l : list (option Z)) : option (list Z) :=
  fold_right (fun o acc =>
                match o, acc with
                | Some x, Some xs => Some (x :: xs)
                | _, _ => None
                end) (Some []) l.

(** Accepts the one ISO 8601 form [YYYY-MM-DDTHH:mm:ss]; every other
    string gives an invalid moment. *)
Definition moment (s : string) : Moment :=
  match list_ascii_of_string s with
  | [y1; y2; y3; y4; d1; m1; m2; d2; a1; a2; t; h1; h2; c1; i1; i2; c2; s1; s2] =>
    if (Ascii.eqb d1 "-" && Ascii.eqb d2 "-" && Ascii.eqb t "T" &&
        Ascii.eqb c1 ":" && Ascii.eqb c2 ":")%bool then
      match all_some [number 0 [y1; y2; y3; y4]; number 0 [m1; m2];
                      number 0 [a1; a2]; number 0 [h1; h2];
                      number 0 [i1; i2]; number 0 [s1; s2]] with
      | Some [y; m; d; h; i; sec] =>
        if ((1 <=? m) && (m <=? 12) && (1 <=? d) && (d <=? 31) &&
            (h <=? 23) && (i <=? 59) && (sec <=? 59))%Z%bool
        then mkMoment true y m d h i sec
        else invalid
      | _ => invalid
      end
    else invalid
  | _ => invalid
  end.

Definition sextet (c : ascii) : option N :=
  let n := N_of_ascii c in
  if Lodash.isUpper c then Some (n - 65)%N
  else if Lodash.isLower c then Some (n - 71)%N
  else if Lodash.isDigit c then Some (n + 4)%N
  else if (N.eqb n 43 || N.eqb n 45)%bool then Some 62%N
  else if (N.eqb n 47 || N.eqb n 95)%bool then Some 63%N
  else None.

(** The sextets up to the padding; characters outside the alphabet are
    skipped, never rejected. *)
Fixpoint sextets (l : list ascii) : list N :=
  match l with
  | [] => []
  | c :: l' =>
    if Ascii.eqb c "=" then []
    else match sextet c with
         | Some v => v :: sextets l'
         | None => sextets l'
         end
  end.

Fixpoint octets (l : list N) : list N :=
  match l with
  | a :: b :: c :: d :: r =>
    (a * 4 + b / 16 :: (b mod 16) * 16 + c / 4 :: (c mod 4) * 64 + d :: octets r)%N
  | [a; b; c] => [a * 4 + b / 16; (b mod 16) * 16 + c / 4]%N
  | [a; b] => [a * 4 + b / 16]%N
  | _ => []
  end.

Definition byte (n : N) : Byte.byte :=
  match Byte.of_N n with Some b => b | None => Byte.x00 end.

Definition from_base64 (s : string) : Buffer :=
  map byte (octets (sextets (list_ascii_of_string s))).

Definition bytes_of_string (s : string) : Buffer :=
  map (fun c => byte (N_of_ascii c)) (list_ascii_of_string s).

(** Three gzip members (as [gzip] writes them with a zero time stamp)
    and their contents. *)
Definition gz_zero : Buffer := map byte
  [31; 139; 8; 0; 0; 0; 0; 0; 2; 255; 51; 0; 0; 33; 223; 219; 244; 1; 0; 0; 0]%N.
Definition gz_rows : Buffer := map byte
  [31; 139; 8; 0; 0; 0; 0; 0; 2; 255; 139; 54; 212; 49; 210; 49; 142; 5; 0;
   233; 179; 109; 253; 7; 0; 0; 0]%N.
Definition gz_oops : Buffer := map byte
  [31; 139; 8; 0; 0; 0; 0; 0; 2; 255; 203; 207; 47; 40; 6; 0; 36; 237; 185;
   231; 4; 0; 0; 0]%N.

Definition buffer_eqb (a b : Buffer) : bool :=
  if list_eq_dec Byte.byte_eq_dec a b then true else false.

Definition gunzip (b : Buffer) : JsError + Buffer :=
  if buffer_eqb b gz_zero then inr (bytes_of_string "0")
  else if buffer_eqb b gz_rows then inr (bytes_of_string "[1,2,3]")
  else if buffer_eqb b gz_oops then inr (bytes_of_string "oops")
  else inl (ZlibError "incorrect header check").

Definition JSON_parse (s : string) : JsError + JSON :=
  if String.eqb s "0" then inr (JNumber 0)
  else if String.eqb s "[1,2,3]" then inr (JArray [JNumber 1; JNumber 2; JNumber 3])
  else inl (SyntaxError "Unexpected token").

Definition inspect (s : string) : string := "'" ++ s ++ "'".

(** Three pushes of the stock server: a payload of rows, the payload
    [0], and a payload that is no JSON text. *)
Definition push_rows : Data.Wire :=
  Data.mkWire "2016-11-03T10:15:00" ["aapl"; "ibm"; "aapl"]
              "H4sIAAAAAAAC/4s21DHSMY4FAOmzbf0HAAAA".
Definition push_zero : Data.Wire :=
  Data.mkWire "2016-11-03T10:15:00" ["aapl"] "H4sIAAAAAAAC/zMAACHf2/QBAAAA".
Definition push_oops : Data.Wire :=
  Data.mkWire "2016-11-03T10:15:00" ["aapl"] "H4sIAAAAAAAC/8vPLygGACTtuecEAAAA".

(** A local client of the service at [http://stock-server.example.com],
    with and without a secret. *)
Definition handlers : Client.Handlers :=
  Client.mkHandlers (Function 1) (Function 2) (Function 3).

Definition local : list (string * JSON) :=
  [("protocol", JString "http:"); ("port", JNumber 8080);
   ("pathname", JString "/client")].

Definition servUrl : Node.Url :=
  Node.mkUrl "http://stock-server.example.com" None None None "".

Definition client (secret : option string) : Client.Instance :=
  Client.mkClient servUrl local secret (Some 15000%Z) handlers.

End Stub.

(** ** Scenarios and statements of the specification *)

(** A first call of [payload], the completion of its decompression, and
    a second call. *)
Definition twice (f g : nat) : list Data.Op :=
  [Data.Call (Function f); Data.Done 0; Data.Call (Function g)].




(** The specification on construction: a timestamp that does not parse, or a payload that is
    no base64 text, makes the constructor throw. *)
Definition construct_validates : Prop :=
  forall (moment : string -> Moment) (from_base64 : string -> Buffer) (json : Data.Wire),
    m_valid (moment (Data.w_when json)) = false \/
    Node.valid_base64 (Data.w_payload json) = false ->
    exists e, Data.construct moment from_base64 json = Abrupt e.

(** The specification on [restart] without [when]: no request of the call has
    a [date] key in the query of its url. *)
Definition restart_omits_date : Prop :=
  forall (next : Fn) (c : Client.Instance) (r : Client.Request),
    Node.truthy_str (Client._secret c) = true ->
    In (Client.Send r) (fst (Client.restart next Client.Absent c)) ->
    ~ In "date" (Node.query_keys (Client.r_url r)).

(** The four characters that structure a url's query. *)
Definition separators : list ascii := ["?"; "#"; "&"; "="]%char.

(** ** Sequences of client operations *)
Module Session.

(** A call of one of the public methods of a client. *)
Inductive Op : Type :=
| Connect
| Disconnect
| Start (next : Fn)
| Stop (next : Fn)
| Restart (next : Fn) (when : Client.When)
| On (event : Client.Name) (handler : Fn).

Definition perform (o : Op) (c : Client.Instance)
  : list Client.Effect * Client.Instance :=
  match o with
  | Connect => Client.connect c
  | Disconnect => Client.disconnect c
  | Start next => Client.start next c
  | Stop next => Client.stop next c
  | Restart next when => Client.restart next when c
  | On event handler => Client.on event handler c
  end.

(** The client as the calls [ops], made in this order, leave it. *)
Fixpoint after_all (ops : list Op) (c : Client.Instance) : Client.Instance :=
  match ops with
  | [] => c
  | o :: ops' => after_all ops' (snd (perform o c))
  end.

(** Two clients that talk to the same service in the same way: all that
    the requests of a client are built from. *)
Definition same_service (c c' : Client.Instance) : Prop :=
  Node.origin (Client._servUrl c) = Node.origin (Client._servUrl c') /\
  Node.search (Client._servUrl c) = Node.search (Client._servUrl c') /\
  Node.hash (Client._servUrl c) = Node.hash (Client._servUrl c') /\
  Client._local c = Client._local c' /\
  Client._secret c = Client._secret c' /\
  Client.timeout c = Client.timeout c'.

End Session.

(** ** The constructor of [Client] (src/index.js, lines 126-212) *)
Module Construct.

(** The application environment ([config.config]) as the constructor
    reads it.  [e_serviceURL] is [getServiceURL("stock-server")], [null]
    when the service is unknown; [e_url] is [config.config.url];
    [e_locals] is [config.config.locals], of which the constructor reads
    [local.client.pathname] (through [_.get], so any missing step gives
    [undefined]) and [remote] with its [secret] and [timeout]. *)
Record Remote : Type := mkRemote {
  rem_secret : option string;
  rem_timeout : option Z
}.

Record Locals : Type := mkLocals {
  l_pathname : option string;
  l_remote : option Remote
}.

Record AppEnv : Type := mkEnv {
  e_serviceURL : option string;
  e_isLocal : bool;
  e_url : option string;
  e_port : Z;
  e_locals : option Locals
}.

(** The argument of the constructor: [c_app] is [!!config.app] (an
    express application when it is there), [c_env] is [config.config],
    the handlers are [undefined] ([None]) or whatever was passed. *)
Record Config : Type := mkConfig {
  c_app : bool;
  c_env : option AppEnv;
  c_error : option Fn;
  c_status : option Fn;
  c_data : option Fn
}.

(** [s.slice(0, -1)]: the string without its last character. *)
Definition slice_0_m1 (s : string) : string :=
  string_of_list_ascii (removelast (list_ascii_of_string s)).

(** [_.defaultsDeep] on one handler slot: only [undefined] is filled. *)
Definition defaulted (given : option Fn) (default : Fn) : Fn :=
  match given with Some h => h | None => default end.

(** [_.extend(o, {k: v})] on an object given by the fields its JSON text
    shows: an [undefined] value shows no field. *)
Definition set_field (k : string) (v : option JSON) (o : list (string * JSON))
  : list (string * JSON) :=
  match v with
  | None => filter (fun kv => negb (String.eqb (fst kv) k)) o
  | Some x =>
    if existsb (fun kv => String.eqb (fst kv) k) o
    then map (fun kv => if String.eqb (fst kv) k then (k, x) else kv) o
    else (o ++ [(k, x)])%list
  end.

(** [_.get(config.config, "locals.local.client.pathname")] *)
Definition pathname (env : AppEnv) : option string :=
  match e_locals env with
  | Some l => l_pathname l
  | None => None
  end.

Section WithUrl.

(** [url.parse] of the service url, as [url.format] will read it, and of
    the public url of the application, as its JSON text shows it (both
    for urls whose credentials, if any, decode); the three default
    handlers. *)
Variable parse : string -> Node.Url.
Variable parse_fields : string -> list (string * JSON).
Variable defaults : Client.Handlers.

(** [new Client(config)], statement by statement: the assertion (line
    128), the service url (154), the local address (157-168), the secret
    and the timeout read from [locals.remote] (170, 176), and the mount
    of the sub-application under the pathname (211), where express
    throws on a path that is [undefined]. *)
Definition create (config : Config) : Completion Client.Instance :=
  if negb (c_app config) then Abrupt AssertionError
  else
    let handlers :=
      Client.mkHandlers (defaulted (c_error config) (Client.error defaults))
                        (defaulted (c_status config) (Client.status defaults))
                        (defaulted (c_data config) (Client.data defaults)) in
    match c_env config with
    | None => Abrupt (TypeError "Cannot read property 'getServiceURL' of undefined")
    | Some env =>
      match e_serviceURL env with
      | None => Abrupt (TypeError "Cannot read property 'slice' of null")
      | Some s =>
        let servUrl := parse (slice_0_m1 s) in
        let address :=
          if negb (e_isLocal env) then option_map parse_fields (e_url env)
          else Some [("protocol", JString "http:"); ("port", JNumber (e_port env))] in
        match address with
        | None => Abrupt (TypeError "Parameter 'url' must be a string, not undefined")
        | Some local =>
          let local := set_field "pathname" (option_map JString (pathname env)) local in
          match e_locals env with
          | None => Abrupt (TypeError "Cannot read property 'remote' of undefined")
          | Some l =>
            match l_remote l with
            | None => Abrupt (TypeError "Cannot read property 'secret' of undefined")
            | Some r =>
              match l_pathname l with
              | None => Abrupt (TypeError "Cannot read property 'length' of undefined")
              | Some _ =>
                Normal (Client.mkClient servUrl local (rem_secret r) (rem_timeout r)
                                        handlers)
              end
            end
          end
        end
      end
    end.

End WithUrl.

(** A configuration of a local application that has everything the
    constructor reads, and the same without [locals.remote]. *)
Definition complete (service : string) (data : option Fn) : Config :=
  mkConfig true
    (Some (mkEnv (Some service) true None 8080
                 (Some (mkLocals (Some "/client") (Some (mkRemote None None))))))
    None None data.


End Construct.

(** ** The default handlers (src/index.js, lines 131-149) *)
Module Defaults.

(** What the default handlers write to the log. *)
Inductive Log : Type :=
| LogError (e : JsError)                       (* w.error(err.toString()) *)
| LogSignal (ip : string) (signal : option string)
| LogRows (ip : string) (payload : JSON).      (* ... payload.length *)

(** [(resp, err) => { if (!!err) w.error(err.toString()); }] called with
    the arguments [args]: [err] is the second one. *)
Definition error_handler (args : list JsError) : list Log :=
  match nth_error args 1 with
  | Some e => [LogError e]
  | None => []
  end.

(** [(status, req) => w.debug(..., req.ip, status)] *)
Definition status_handler (signal : option string) (ip : string) : list Log :=
  [LogSignal ip signal].

(** The callback that the default data handler passes to [data.payload]:
    [(err, payload) => w.debug(..., req.ip, payload.length)].  Reading
    [length] of [undefined] or [null] throws. *)
Definition data_callback (ip : string) (err : option JsError) (payload : option JSON)
  : Completion Log :=
  match payload with
  | None => Abrupt (TypeError "Cannot read property 'length' of undefined")
  | Some JNull => Abrupt (TypeError "Cannot read property 'length' of null")
  | Some v => Normal (LogRows ip v)
  end.

(** What the default handlers do at an effect of the client when they are
    the ones installed: [on] calls the error handler with one argument. *)
Definition at_effect (e : Client.Effect) : list Log :=
  match e with
  | Client.OnError _ err => error_handler [err]
  | Client.OnStatus _ signal ip => status_handler signal ip
  | _ => []
  end.

(** What the callback of the default data handler does at an event of the
    envelope. *)
Definition at_event (ip : string) (e : Data.Event) : option (Completion Log) :=
  match e with
  | Data.Next _ err v => Some (data_callback ip err v)
  | _ => None
  end.

End Defaults.

(** ** What holds of every reachable state of an envelope *)
Module Reach.

Section WithBuffer.

Variable gunzip : Buffer -> JsError + Buffer.
Variable JSON_parse : string -> JsError + JSON.
Variable b : Buffer.

(** The buffer [b] decodes, and to a falsy value. *)
Definition falsy_decode : Prop :=
  exists out v,
    gunzip b = inr out /\ JSON_parse (toString_ascii out) = inr v /\ truthy v = false.

(** Every job in flight works on [b]; the envelope holds either [b] or
    the value [b] decodes to; and the error of the last branch of
    [payload] has been reported only if that value is falsy. *)
Definition inv (w : Data.World) : Prop :=
  Forall (fun j => Data.job_buff j = b) (Data.pending w) /\
  (Data._payload (Data.self w) = Data.mkPayload (Some b) None \/
   exists out v,
     gunzip b = inr out /\ JSON_parse (toString_ascii out) = inr v /\
     Data._payload (Data.self w) = Data.mkPayload None (Some v)) /\
  (forall f, In (Data.Next f (Some Data.no_payload) None) (Data.log w) -> falsy_decode).

End WithBuffer.

End Reach.

(** * Properties of lodash [upperCase] *)

Section LodashFacts.

Import Lodash.
















(** ** How the word pattern cuts a ticker *)

Lemma list_ascii_app (a b : string) :
  list_ascii_of_string (a ++ b) =
  (list_ascii_of_string a ++ list_ascii_of_string b)%list.
Proof. induction a as [|c a IH]; cbn; [reflexivity|now rewrite IH]. Qed.

Lemma rx_eos_nil n (k : K) : rx (S n) Eos [] k = k [].
Proof. reflexivity. Qed.
Lemma rx_eos_cons n c s (k : K) : rx n Eos (c :: s) k = None.
Proof. destruct n; reflexivity. Qed.











Lemma stops_cons p c s : p c = false -> stops p (c :: s).
Proof. intros H. exact H. Qed.











































(** ** All the matches of a text *)






(** ** Where lodash decides for the word pattern *)





























End LodashFacts.

(** * Properties of the [Data] envelope *)

Section DataFacts.

Import Data.

Variable moment : string -> Moment.
Variable from_base64 : string -> Buffer.
Variable gunzip : Buffer -> JsError + Buffer.
Variable JSON_parse : string -> JsError + JSON.

Local Abbreviation step := (Data.step gunzip JSON_parse).
Local Abbreviation run := (Data.run gunzip JSON_parse).
Local Abbreviation states := (Data.states gunzip JSON_parse).
Local Abbreviation gunzip_done := (Data.gunzip_done gunzip JSON_parse).
Local Abbreviation init := (Data.init moment from_base64).

Lemma state_emit es w : state (emit es w) = state w.
Proof. reflexivity. Qed.

Lemma init_compressed json : state (init json) = Some Compressed.
Proof. reflexivity. Qed.

(** [payload] itself never touches the two fields. *)
Lemma payload_keeps_self next w : self (payload next w) = self w.
Proof.
  unfold payload.
  destruct (buff (_payload (self w))); [reflexivity|].
  destruct (decoded (_payload (self w))) as [v|]; [|reflexivity].
  destruct (truthy v); reflexivity.
Qed.

(** A completed decompression either leaves the payload as it is or
    stores a decoded value and drops the buffer. *)
Lemma gunzip_done_payload j w :
  _payload (self (gunzip_done j w)) = _payload (self w) \/
  exists out v,
    gunzip (job_buff j) = inr out /\
    JSON_parse (toString_ascii out) = inr v /\
    _payload (self (gunzip_done j w)) = mkPayload None (Some v).
Proof.
  unfold Data.gunzip_done.
  destruct (gunzip (job_buff j)) as [err|out] eqn:Hg; [left; reflexivity|].
  destruct (JSON_parse (toString_ascii out)) as [e|v] eqn:Hp; [left; reflexivity|].
  right. exists out, v. repeat split; auto.
Qed.

Lemma step_payload o w :
  _payload (self (step o w)) = _payload (self w) \/
  exists i j out v,
    o = Done i /\ nth_error (pending w) i = Some j /\
    gunzip (job_buff j) = inr out /\
    JSON_parse (toString_ascii out) = inr v /\
    _payload (self (step o w)) = mkPayload None (Some v).
Proof.
  destruct o as [next|i]; simpl.
  - left. now rewrite payload_keeps_self.
  - destruct (nth_error (pending w) i) as [j|] eqn:Hj; [|left; reflexivity].
    destruct (gunzip_done_payload j
                (mkWorld (self w) (remove_nth i (pending w)) (log w)))
      as [H|(out & v & Hg & Hp & H)].
    + left. exact H.
    + right. exists i, j, out, v. auto.
Qed.

Lemma step_from_decoded o w :
  state w = Some Decoded -> state (step o w) = Some Decoded.
Proof.
  unfold state. intros H.
  destruct (step_payload o w) as [E|(i & j & out & v & _ & _ & _ & _ & E)];
    rewrite E; [exact H|reflexivity].
Qed.

Lemma step_from_compressed o w :
  state w = Some Compressed ->
  state (step o w) = Some Compressed \/ state (step o w) = Some Decoded.
Proof.
  unfold state. intros H.
  destruct (step_payload o w) as [E|(i & j & out & v & _ & _ & _ & _ & E)];
    rewrite E; [left; exact H|right; reflexivity].
Qed.

Lemma states_decoded ops : forall w,
  state w = Some Decoded ->
  states ops w = repeat (Some Decoded) (S (List.length ops)).
Proof.
  induction ops as [|o ops IH]; intros w H; simpl.
  - now rewrite H.
  - rewrite H. f_equal. apply IH. now apply step_from_decoded.
Qed.

Lemma states_compressed ops : forall w,
  state w = Some Compressed ->
  exists n m,
    states ops w = (repeat (Some Compressed) (S n) ++ repeat (Some Decoded) m)%list.
Proof.
  induction ops as [|o ops IH]; intros w H; simpl.
  - exists 0%nat, 0%nat. now rewrite H.
  - rewrite H. destruct (step_from_compressed o w H) as [Hc|Hd].
    + destruct (IH _ Hc) as (n & m & E). exists (S n), m. now rewrite E.
    + exists 0%nat, (S (List.length ops)). simpl. f_equal.
      now apply states_decoded.
Qed.

End DataFacts.

(** After a successful decode of a truthy value the second call is served
    from the memoized value, without a second decompression. *)
Lemma payload_memoized_truthy
      (moment : string -> Moment) (from_base64 : string -> Buffer)
      (gunzip : Buffer -> JsError + Buffer) (JSON_parse : string -> JsError + JSON)
      (json : Data.Wire) (f g : nat) (out : Buffer) (v : JSON) :
  gunzip (from_base64 (Data.w_payload json)) = inr out ->
  JSON_parse (toString_ascii out) = inr v ->
  truthy v = true ->
  Data.log (Data.run gunzip JSON_parse (twice f g) (Data.init moment from_base64 json)) =
  [Data.Gunzip (from_base64 (Data.w_payload json));
   Data.Next f None (Some v); Data.Next g None (Some v)].
Proof.
  intros Hg Hp Ht. unfold twice, Data.run. simpl.
  unfold Data.gunzip_done. simpl. rewrite Hg, Hp. simpl.
  unfold Data.payload. simpl. rewrite Ht. reflexivity.
Qed.

(** A failed decompression reaches the callback and leaves the envelope
    compressed. *)
Lemma payload_gunzip_failure
      (moment : string -> Moment) (from_base64 : string -> Buffer)
      (gunzip : Buffer -> JsError + Buffer) (JSON_parse : string -> JsError + JSON)
      (json : Data.Wire) (f : nat) (err : JsError) :
  gunzip (from_base64 (Data.w_payload json)) = inl err ->
  let w := Data.run gunzip JSON_parse [Data.Call (Function f); Data.Done 0]
                    (Data.init moment from_base64 json) in
  Data.log w = [Data.Gunzip (from_base64 (Data.w_payload json));
                Data.Next f (Some err) None] /\
  Data.state w = Some Data.Compressed.
Proof.
  intros Hg. unfold Data.run. simpl.
  unfold Data.gunzip_done. simpl. rewrite Hg. split; reflexivity.
Qed.

(** Two calls made before the first decompression completes both start
    one: the buffer is still there at the second call. *)
Lemma payload_twice_before_completion
      (moment : string -> Moment) (from_base64 : string -> Buffer)
      (gunzip : Buffer -> JsError + Buffer) (JSON_parse : string -> JsError + JSON)
      (json : Data.Wire) (f g : nat) :
  Data.log (Data.run gunzip JSON_parse [Data.Call (Function f); Data.Call (Function g)]
              (Data.init moment from_base64 json)) =
  [Data.Gunzip (from_base64 (Data.w_payload json));
   Data.Gunzip (from_base64 (Data.w_payload json))].
Proof. reflexivity. Qed.

(** C3: at every point between operations exactly one of the buffer and the
    decoded value is present; a new envelope is Compressed; along any
    sequence of calls and completions the states are a run of Compressed
    followed by a run of Decoded, so the envelope becomes Decoded at most
    once and stays so; and the step that makes it Decoded is a completed
    decompression whose output parsed. *)
Theorem payload_state_once
        (moment : string -> Moment) (from_base64 : string -> Buffer)
        (gunzip : Buffer -> JsError + Buffer) (JSON_parse : string -> JsError + JSON)
        (json : Data.Wire) (ops : list Data.Op) :
  Data.state (Data.init moment from_base64 json) = Some Data.Compressed /\
  (exists n m,
     Data.states gunzip JSON_parse ops (Data.init moment from_base64 json) =
     (repeat (Some Data.Compressed) (S n) ++ repeat (Some Data.Decoded) m)%list) /\
  (forall w o,
     Data.state w = Some Data.Compressed ->
     Data.state (Data.step gunzip JSON_parse o w) = Some Data.Decoded ->
     exists i j out v,
       o = Data.Done i /\ nth_error (Data.pending w) i = Some j /\
       gunzip (Data.job_buff j) = inr out /\
       JSON_parse (toString_ascii out) = inr v /\
       Data._payload (Data.self (Data.step gunzip JSON_parse o w)) =
       Data.mkPayload None (Some v)).
Proof.
  split; [reflexivity|]. split.
  - apply states_compressed. reflexivity.
  - intros w o Hc Hd.
    destruct (step_payload gunzip JSON_parse o w)
      as [E|(i & j & out & v & Ho & Hj & Hg & Hp & E)].
    + unfold Data.state in Hc, Hd. rewrite E in Hd. congruence.
    + exists i, j, out, v. auto.
Qed.

(** C1 (what the code does at a falsy payload): when the decoded JSON
    value is falsy (0, false, null or the empty string) the first call
    passes it to its callback, and the second call, made after the decode
    succeeded, passes the TypeError of the last branch instead of the
    memoized value; the buffer was decompressed once. *)
Theorem payload_twice_falsy
        (moment : string -> Moment) (from_base64 : string -> Buffer)
        (gunzip : Buffer -> JsError + Buffer) (JSON_parse : string -> JsError + JSON)
        (json : Data.Wire) (f g : nat) (out : Buffer) (v : JSON) :
  gunzip (from_base64 (Data.w_payload json)) = inr out ->
  JSON_parse (toString_ascii out) = inr v ->
  truthy v = false ->
  let w := Data.run gunzip JSON_parse (twice f g) (Data.init moment from_base64 json) in
  Data.log w =
  [Data.Gunzip (from_base64 (Data.w_payload json));
   Data.Next f None (Some v);
   Data.Next g (Some Data.no_payload) None] /\
  Data.gunzips w = 1%nat.
Proof.
  intros Hg Hp Ht. unfold twice, Data.run. simpl.
  unfold Data.gunzip_done. simpl. rewrite Hg, Hp. simpl.
  unfold Data.payload, Data.gunzips. simpl. rewrite Ht. split; reflexivity.
Qed.

Lemma payload_twice_falsy_witness :
  Data.log (Data.run Stub.gunzip Stub.JSON_parse (twice 7 8)
              (Data.init Stub.moment Stub.from_base64 Stub.push_zero)) =
  [Data.Gunzip Stub.gz_zero;
   Data.Next 7 None (Some (JNumber 0));
   Data.Next 8 (Some (TypeError "No payload buffer or decoded value?")) None].
Proof.
  exact (proj1 (payload_twice_falsy Stub.moment Stub.from_base64 Stub.gunzip
                  Stub.JSON_parse Stub.push_zero 7 8 (Stub.bytes_of_string "0")
                  (JNumber 0) eq_refl eq_refl eq_refl)).
Defined.

(** C2 (what the code does at a parse failure): when the buffer
    decompresses but its text is no JSON, the exception of JSON.parse
    leaves the decompression callback: the callback passed to payload is
    never invoked; the envelope stays Compressed. *)
Theorem payload_parse_failure_throws
        (moment : string -> Moment) (from_base64 : string -> Buffer)
        (gunzip : Buffer -> JsError + Buffer) (JSON_parse : string -> JsError + JSON)
        (json : Data.Wire) (f : nat) (out : Buffer) (e : JsError) :
  gunzip (from_base64 (Data.w_payload json)) = inr out ->
  JSON_parse (toString_ascii out) = inl e ->
  let w := Data.run gunzip JSON_parse [Data.Call (Function f); Data.Done 0]
                    (Data.init moment from_base64 json) in
  Data.log w = [Data.Gunzip (from_base64 (Data.w_payload json)); Data.Throw e] /\
  Data.state w = Some Data.Compressed.
Proof.
  intros Hg Hp. unfold Data.run. simpl.
  unfold Data.gunzip_done. simpl. rewrite Hg, Hp. split; reflexivity.
Qed.

Lemma payload_parse_failure_witness :
  Data.log (Data.run Stub.gunzip Stub.JSON_parse [Data.Call (Function 7); Data.Done 0]
              (Data.init Stub.moment Stub.from_base64 Stub.push_oops)) =
  [Data.Gunzip Stub.gz_oops; Data.Throw (SyntaxError "Unexpected token")].
Proof.
  exact (proj1 (payload_parse_failure_throws Stub.moment Stub.from_base64
                  Stub.gunzip Stub.JSON_parse Stub.push_oops 7
                  (Stub.bytes_of_string "oops") (SyntaxError "Unexpected token")
                  eq_refl eq_refl)).
Defined.

Lemma payload_state_once_witness :
  exists i j out v,
    Data.Done 0 = Data.Done i /\
    nth_error (Data.pending (Data.step Stub.gunzip Stub.JSON_parse
                 (Data.Call (Function 7))
                 (Data.init Stub.moment Stub.from_base64 Stub.push_rows))) i = Some j /\
    Stub.gunzip (Data.job_buff j) = inr out /\
    Stub.JSON_parse (toString_ascii out) = inr v /\
    Data._payload (Data.self (Data.step Stub.gunzip Stub.JSON_parse (Data.Done 0)
                 (Data.step Stub.gunzip Stub.JSON_parse (Data.Call (Function 7))
                    (Data.init Stub.moment Stub.from_base64 Stub.push_rows)))) =
    Data.mkPayload None (Some v).
Proof.
  exact (proj2 (proj2 (payload_state_once Stub.moment Stub.from_base64 Stub.gunzip
                         Stub.JSON_parse Stub.push_rows []))
               (Data.step Stub.gunzip Stub.JSON_parse (Data.Call (Function 7))
                  (Data.init Stub.moment Stub.from_base64 Stub.push_rows))
               (Data.Done 0) eq_refl eq_refl).
Defined.




(** C6 (counterexample): the timestamp yesterday and the payload %%% give an
    envelope, not an exception. *)
Lemma construct_accepts_bad_input :
  m_valid (Stub.moment "yesterday") = false /\
  Node.valid_base64 "%%%" = false /\
  Data.construct Stub.moment Stub.from_base64 (Data.mkWire "yesterday" ["aapl"] "%%%") =
    Normal (Data.mkData Stub.invalid ["AAPL"] (Data.mkPayload (Some []) None)) /\
  ~ construct_validates.
Proof.
  split; [reflexivity|]. split; [reflexivity|]. split; [vm_compute; reflexivity|].
  intros H.
  destruct (H Stub.moment Stub.from_base64 (Data.mkWire "yesterday" ["aapl"] "%%%"))
    as [e He].
  - left. reflexivity.
  - discriminate He.
Qed.

(** C6 (amended): constructing an envelope never throws; the timestamp is
    stored as moment returns it, valid or not (it is not replaced by a
    default), and the payload is stored as the buffer the base64 decoder
    returns for it. *)
Theorem construct_never_fails
        (moment : string -> Moment) (from_base64 : string -> Buffer)
        (json : Data.Wire) :
  exists d,
    Data.construct moment from_base64 json = Normal d /\
    Data.when d = moment (Data.w_when json) /\
    Data._payload d = Data.mkPayload (Some (from_base64 (Data.w_payload json))) None.
Proof.
  exists (Data.new moment from_base64 json). repeat split.
Qed.

(** * Properties of the [Client] *)

Section UrlFacts.

Import Node.

Lemma app_assoc_string (a b c : string) : (a ++ b) ++ c = a ++ (b ++ c).
Proof. induction a as [|x a IH]; simpl; [reflexivity|now rewrite IH]. Qed.

Lemma unreserved_not_hash c : unreserved c = true -> Ascii.eqb c "#" = false.
Proof.
  intros H. destruct (Ascii.eqb_spec c "#") as [E|]; [|reflexivity].
  subst c. vm_compute in H. discriminate H.
Qed.

Lemma hexDigit_not_hash c :
  Ascii.eqb (hexDigit (N.div (N_of_ascii c) 16)) "#" = false /\
  Ascii.eqb (hexDigit (N.modulo (N_of_ascii c) 16)) "#" = false.
Proof.
  destruct c as [[] [] [] [] [] [] [] []]; vm_compute; split; reflexivity.
Qed.

(** An escaped string has no [#] for [url.format] to replace. *)
Lemma escapeHash_escape_app s r :
  escapeHash (escape s ++ r) = escape s ++ escapeHash r.
Proof.
  induction s as [|c s IH]; simpl; [reflexivity|].
  destruct (unreserved c) eqn:Hu; simpl.
  - rewrite (unreserved_not_hash c Hu). now rewrite IH.
  - destruct (hexDigit_not_hash c) as [H1 H2]. rewrite H1, H2. now rewrite IH.
Qed.

Lemma escapeHash_escape s : escapeHash (escape s) = escape s.
Proof.
  induction s as [|c s IH]; simpl; [reflexivity|].
  destruct (unreserved c) eqn:Hu; simpl.
  - rewrite (unreserved_not_hash c Hu). now rewrite IH.
  - destruct (hexDigit_not_hash c) as [H1 H2]. rewrite H1, H2. now rewrite IH.
Qed.

(** The url of [/serv/reset] for a service url without a query string. *)
Lemma format_reset u (token date : option string) :
  search u = None ->
  format (mkUrl (origin u) (Some "/serv/reset") (search u)
                (Some [("token", token); ("date", date)]) (hash u)) =
  origin u ++ "/serv/reset?token=" ++ escape (stringifyPrimitive token) ++
  "&date=" ++ escape (stringifyPrimitive date) ++ hash u.
Proof.
  intros Hs. unfold format, stringify. rewrite Hs. simpl.
  rewrite escapeHash_escape_app. simpl.
  rewrite escapeHash_escape. rewrite ?app_assoc_string. simpl.
  rewrite ?app_assoc_string. reflexivity.
Qed.

End UrlFacts.

Lemma remoteUrl_keeps (path : string) (q : option Node.Query) (c : Client.Instance) :
  Client.timeout (snd (Client._remoteUrl path q c)) = Client.timeout c /\
  Client._local (snd (Client._remoteUrl path q c)) = Client._local c /\
  Client._secret (snd (Client._remoteUrl path q c)) = Client._secret c /\
  Client._handlers (snd (Client._remoteUrl path q c)) = Client._handlers c.
Proof. repeat split. Qed.

(** With a secret at hand a command sends its GET and nothing else. *)
Lemma command_with_secret (path : string) (q : Node.Query) (next : Fn)
      (c : Client.Instance) :
  Node.truthy_str (Client._secret c) = true ->
  fst (Client.command path q next c) =
  [Client.Send (Client.mkRequest Client.GET
                  (fst (Client._remoteUrl path (Some q) c)) None (Client.timeout c))].
Proof.
  intros H. unfold Client.command, Client.guard. rewrite H. reflexivity.
Qed.

(** Without a secret and with a callback the guard reports the error and
    the command goes on to send its GET. *)
Lemma command_without_secret (path : string) (q : Node.Query) (f : nat)
      (c : Client.Instance) :
  Node.truthy_str (Client._secret c) = false ->
  fst (Client.command path q (Function f) c) =
  [Client.Callback f (Some Client.no_secret);
   Client.Send (Client.mkRequest Client.GET
                  (fst (Client._remoteUrl path (Some q) c)) None (Client.timeout c))].
Proof.
  intros H. unfold Client.command, Client.guard. rewrite H. reflexivity.
Qed.

Lemma command_without_secret_throws (path : string) (q : Node.Query)
      (c : Client.Instance) :
  Node.truthy_str (Client._secret c) = false ->
  Client.command path q NotAFunction c = ([Client.Raise Client.no_secret], c).
Proof.
  intros H. unfold Client.command, Client.guard. rewrite H. reflexivity.
Qed.

(** C4 (what the code does without a secret): called with a callback,
    start, stop and restart invoke it with the missing-secret error and
    then still send their GET request, so the callback is invoked a second
    time when the reply arrives; called without a callback they throw the
    error and send nothing. *)
Theorem commands_without_secret
        (f : nat) (when : Client.When) (c : Client.Instance) (reply : Client.Reply) :
  Node.truthy_str (Client._secret c) = false ->
  (forall call,
     In call [Client.start (Function f) c; Client.stop (Function f) c;
              Client.restart (Function f) when c] ->
     exists r,
       fst call = [Client.Callback f (Some Client.no_secret); Client.Send r] /\
       Client.r_method r = Client.GET /\
       List.length (Client.calls f
         (Client.exchange (fst call) (Client.command_reply (Function f) reply))) = 2%nat) /\
  (forall call,
     In call [Client.start NotAFunction c; Client.stop NotAFunction c;
              Client.restart NotAFunction when c] ->
     call = ([Client.Raise Client.no_secret], c)).
Proof.
  intros H. split.
  - intros call Hin.
    assert (E : exists path q, call = Client.command path q (Function f) c).
    { simpl in Hin. destruct Hin as [<-|[<-|[<-|[]]]];
        [exists "/serv/start", [("token", Client._secret c)]
        |exists "/serv/stop", [("token", Client._secret c)]
        |exists "/serv/reset", (Client.restart_query when c)]; reflexivity. }
    destruct E as (path & q & ->).
    rewrite (command_without_secret path q f c H).
    eexists. split; [reflexivity|]. split; [reflexivity|].
    unfold Client.exchange, Client.command_reply, Client.report, Client.calls.
    simpl. rewrite Nat.eqb_refl. reflexivity.
  - intros call Hin. simpl in Hin.
    destruct Hin as [<-|[<-|[<-|[]]]];
      [exact (command_without_secret_throws "/serv/start" [("token", Client._secret c)] c H)
      |exact (command_without_secret_throws "/serv/stop" [("token", Client._secret c)] c H)
      |exact (command_without_secret_throws "/serv/reset" (Client.restart_query when c) c H)].
Qed.

Lemma commands_without_secret_witness :
  exists r,
    fst (Client.start (Function 9) (Stub.client None)) =
      [Client.Callback 9 (Some Client.no_secret); Client.Send r] /\
    Client.r_method r = Client.GET /\
    List.length (Client.calls 9
      (Client.exchange (fst (Client.start (Function 9) (Stub.client None)))
         (Client.command_reply (Function 9) (Client.Answered 200 "ok")))) = 2%nat.
Proof.
  exact (proj1 (commands_without_secret 9 Client.Absent (Stub.client None)
                  (Client.Answered 200 "ok") eq_refl)
               (Client.start (Function 9) (Stub.client None))
               (or_introl eq_refl)).
Defined.

(** C7 (what the code does on a bad status): disconnect sends a DELETE to
    the url of connect with the body and the timeout of connect, and
    passes a transport error on as connect does; but when the response
    carries a status other than 200 its callback reports no error, where
    the callback of connect reports one. *)
Theorem disconnect_ignores_status
        (inspect : string -> string) (next : Fn) (c : Client.Instance)
        (code : Z) (body : string) (e : JsError) :
  code <> 200%Z ->
  (exists uri b,
     fst (Client.connect c) =
       [Client.Send (Client.mkRequest Client.PUT uri b (Client.timeout c))] /\
     fst (Client.disconnect c) =
       [Client.Send (Client.mkRequest Client.DELETE uri b (Client.timeout c))] /\
     b = Some (JObject [("href", JObject (Client._local c)); ("verb", JString "POST")]) /\
     (exists msg,
        Client.connect_reply inspect uri next (Client.Answered code body) =
        Client.report next (Some (Error msg)))) /\
  Client.disconnect_reply next (Client.Answered code body) = Client.report next None /\
  Client.disconnect_reply next (Client.Failed e) = Client.report next (Some e) /\
  Client.connect_reply inspect "" next (Client.Failed e) = Client.report next (Some e).
Proof.
  intros Hc. split; [|repeat split].
  do 2 eexists. split; [reflexivity|]. split; [reflexivity|]. split; [reflexivity|].
  unfold Client.connect_reply.
  destruct (Z.eqb_spec code 200) as [E|_]; [contradiction|]. simpl.
  eexists. reflexivity.
Qed.

Lemma disconnect_ignores_status_witness :
  Client.disconnect_reply (Function 9) (Client.Answered 500 "down") =
  [Client.Callback 9 None].
Proof.
  refine (proj1 (proj2 (disconnect_ignores_status Stub.inspect (Function 9)
                          (Stub.client None) 500 "down" (TransportError "ETIMEDOUT")
                          _))).
  lia.
Defined.

(** [hh] is the hour on the twelve-hour clock: half past two in the
    afternoon is printed as 02. *)
Example format_moment_afternoon :
  Node.format_moment (mkMoment true 2024 3 5 14 30 0) = "2024-03-05T02:30:00".
Proof. vm_compute. reflexivity. Qed.

(** C8 (counterexample): without [when] the url of the request is
    .../serv/reset?token=s3&date= and carries the key date. *)
Lemma restart_sends_empty_date :
  fst (Client.restart (Function 9) Client.Absent (Stub.client (Some "s3"))) =
    [Client.Send (Client.mkRequest Client.GET
       "http://stock-server.example.com/serv/reset?token=s3&date="
       None (Some 15000%Z))] /\
  Node.query_keys "http://stock-server.example.com/serv/reset?token=s3&date=" =
    ["token"; "date"] /\
  ~ restart_omits_date.
Proof.
  split; [vm_compute; reflexivity|]. split; [vm_compute; reflexivity|].
  intros H.
  apply (H (Function 9) (Stub.client (Some "s3"))
           (Client.mkRequest Client.GET
              "http://stock-server.example.com/serv/reset?token=s3&date="
              None (Some 15000%Z))).
  - reflexivity.
  - vm_compute. left. reflexivity.
  - vm_compute. right. left. reflexivity.
Qed.

(** C8 (amended): with a secret configured and a service url without a
    query string, restart sends one GET to /serv/reset whose query is
    token=<secret>&date=<date>, both values percent-encoded: <date> is the
    moment formatted as YYYY-MM-DD[T]hh:mm:ss when [when] is a moment
    (2024-03-05T09:30:00 for that moment), and the empty string when
    [when] is absent or no moment, so the url then ends in an empty
    date= parameter. *)
Theorem restart_date_parameter
        (next : Fn) (when : Client.When) (c : Client.Instance) :
  Node.truthy_str (Client._secret c) = true ->
  Node.search (Client._servUrl c) = None ->
  fst (Client.restart next when c) =
    [Client.Send (Client.mkRequest Client.GET
       (Node.origin (Client._servUrl c) ++ "/serv/reset?token=" ++
        Node.escape (Node.stringifyPrimitive (Client._secret c)) ++ "&date=" ++
        Node.escape (match when with
                     | Client.AMoment m => Node.format_moment m
                     | _ => ""
                     end) ++
        Node.hash (Client._servUrl c))
       None (Client.timeout c))] /\
  Node.format_moment (mkMoment true 2024 3 5 9 30 0) = "2024-03-05T09:30:00" /\
  Node.query_params
    (Client.r_url (hd (Client.mkRequest Client.GET "" None None)
       (Client.sent (fst (Client.restart next
          (Client.AMoment (mkMoment true 2024 3 5 9 30 0))
          (Stub.client (Some "s3"))))))) =
    [("token", "s3"); ("date", "2024-03-05T09:30:00")].
Proof.
  intros Hs Hq. split; [|split].
  - unfold Client.restart. rewrite (command_with_secret _ _ _ _ Hs).
    unfold Client._remoteUrl, Client.restart_query. cbn [fst].
    rewrite (format_reset (Client._servUrl c) _ _ Hq).
    destruct when; reflexivity.
  - vm_compute. reflexivity.
  - destruct next; vm_compute; reflexivity.
Qed.

Lemma restart_date_parameter_witness :
  fst (Client.restart (Function 9) Client.Absent (Stub.client (Some "s3"))) =
  [Client.Send (Client.mkRequest Client.GET
     "http://stock-server.example.com/serv/reset?token=s3&date=" None
     (Some 15000%Z))].
Proof.
  exact (proj1 (restart_date_parameter (Function 9) Client.Absent
                  (Stub.client (Some "s3")) eq_refl eq_refl)).
Defined.

(** C9: for an inbound POST to /data the events are, in this order, the
    response with status 200 and body {success: true} and then the call of
    the data handler with the envelope built from the body and the request;
    for a POST to /signal they are the same response and then the call of
    the status handler with the signal and the request.  Whatever the
    handlers of the client are, also when a slot holds no function, the
    response is the first event and no other response follows it. *)
Theorem inbound_ack_first
        (moment : string -> Moment) (from_base64 : string -> Buffer)
        (c : Client.Instance) :
  (forall (req : Client.Req Data.Wire) (f : nat),
     Client.data (Client._handlers c) = Function f ->
     Client.handle moment from_base64 c (Client.PostData req) =
       [Client.Respond 200 (JObject [("success", JBool true)]);
        Client.OnData f (Data.new moment from_base64 (Client.body req))
                        (Client.ip req)]) /\
  (forall (req : Client.Req (option string)) (g : nat),
     Client.status (Client._handlers c) = Function g ->
     Client.handle moment from_base64 c (Client.PostSignal req) =
       [Client.Respond 200 (JObject [("success", JBool true)]);
        Client.OnStatus g (Client.body req) (Client.ip req)]) /\
  (forall i : Client.Inbound,
     hd_error (Client.handle moment from_base64 c i) =
       Some (Client.Respond 200 (JObject [("success", JBool true)])) /\
     forall code b,
       ~ In (Client.Respond code b) (tl (Client.handle moment from_base64 c i))).
Proof.
  split; [|split].
  - intros req f Hf. cbn [Client.handle].
    unfold Client.post_data, Data.construct. rewrite Hf. reflexivity.
  - intros req g Hg. cbn [Client.handle].
    unfold Client.post_signal. rewrite Hg. reflexivity.
  - intros i. split; [destruct i; reflexivity|].
    intros code b. destruct i as [req|req]; simpl.
    + destruct (Client.data (Client._handlers c)); simpl;
        intros [H|[]]; discriminate H.
    + destruct (Client.status (Client._handlers c)); simpl;
        intros [H|[]]; discriminate H.
Qed.

Lemma inbound_ack_first_witness :
  Client.handle Stub.moment Stub.from_base64 (Stub.client None)
    (Client.PostData (Client.mkReq "10.0.0.1" Stub.push_rows)) =
  [Client.Respond 200 (JObject [("success", JBool true)]);
   Client.OnData 3 (Data.new Stub.moment Stub.from_base64 Stub.push_rows) "10.0.0.1"].
Proof.
  exact (proj1 (inbound_ack_first Stub.moment Stub.from_base64 (Stub.client None))
               (Client.mkReq "10.0.0.1" Stub.push_rows) 3 eq_refl).
Defined.

(** C10: when the event is no string or the handler is no function, on
    throws the assertion error, leaves the client (and so every handler)
    as it was and invokes no handler; hence a call of on that invoked the
    error handler had a string event and a function handler. *)
Theorem on_asserts_arguments
        (event : Client.Name) (handler : Fn) (c : Client.Instance) :
  (Client.isString event = false \/ isFunction handler = false ->
   Client.on event handler c = ([Client.Raise AssertionError], c)) /\
  (forall h e, In (Client.OnError h e) (fst (Client.on event handler c)) ->
               Client.isString event = true /\ isFunction handler = true).
Proof.
  split.
  - intros H. unfold Client.on.
    destruct (Client.isString event), (isFunction handler);
      destruct H as [H|H]; try discriminate H; reflexivity.
  - intros h e. unfold Client.on.
    destruct (Client.isString event), (isFunction handler); simpl;
      try (intros [H|[]]; discriminate H).
    intros _. split; reflexivity.
Qed.

Lemma on_asserts_arguments_witness :
  Client.on Client.NotAString (Function 5) (Stub.client None) =
  ([Client.Raise AssertionError], Stub.client None).
Proof.
  exact (proj1 (on_asserts_arguments Client.NotAString (Function 5) (Stub.client None))
               (or_introl eq_refl)).
Defined.

(** * Further properties of the [Data] envelope *)

Section MoreDataFacts.

Import Data.

Variable gunzip : Buffer -> JsError + Buffer.
Variable JSON_parse : string -> JsError + JSON.

Local Abbreviation step := (Data.step gunzip JSON_parse).
Local Abbreviation run := (Data.run gunzip JSON_parse).

Lemma run_cons o ops w : run (o :: ops) w = run ops (step o w).
Proof. reflexivity. Qed.

Lemma gunzips_emit es w :
  (forall b, ~ In (Gunzip b) es) -> gunzips (emit es w) = gunzips w.
Proof.
  intros H. unfold gunzips, emit. cbn [log].
  rewrite filter_app, length_app.
  assert (E : filter (fun e => match e with Gunzip _ => true | _ => false end) es = []).
  { induction es as [|e es IH]; [reflexivity|]. cbn [filter].
    destruct e as [b| |]; [exfalso; apply (H b); now left| |];
      apply IH; intros b Hb; apply (H b); now right. }
  rewrite E. cbn. lia.
Qed.

Lemma no_gunzip_fail next e b : ~ In (Gunzip b) (fail next e).
Proof. destruct next; simpl; intros [H|[]]; discriminate H. Qed.

Lemma no_gunzip_succeed next v b : ~ In (Gunzip b) (succeed next v).
Proof. destruct next; simpl; [intros []|intros [H|[]]; discriminate H]. Qed.

(** A completion starts no decompression. *)
Lemma gunzips_done j w :
  gunzips (Data.gunzip_done gunzip JSON_parse j w) = gunzips w.
Proof.
  unfold Data.gunzip_done.
  destruct (gunzip (job_buff j)) as [err|out].
  - apply gunzips_emit. intros b. apply no_gunzip_fail.
  - destruct (JSON_parse (toString_ascii out)) as [e|v].
    + apply gunzips_emit. intros b [H|[]]. discriminate H.
    + rewrite gunzips_emit; [reflexivity|]. intros b. apply no_gunzip_succeed.
Qed.

Lemma gunzips_step_decoded o w :
  state w = Some Decoded -> gunzips (step o w) = gunzips w.
Proof.
  intros Hd. destruct o as [next|i]; cbn [Data.step].
  - unfold payload. unfold state, state_of in Hd.
    destruct (buff (_payload (self w))); [destruct (decoded (_payload (self w))); discriminate Hd|].
    destruct (decoded (_payload (self w))) as [v|].
    + destruct (truthy v); apply gunzips_emit; intros b;
        [apply no_gunzip_succeed|apply no_gunzip_fail].
    + apply gunzips_emit. intros b. apply no_gunzip_fail.
  - destruct (nth_error (pending w) i) as [j|]; [|reflexivity].
    now rewrite gunzips_done.
Qed.

Lemma gunzips_run_decoded ops : forall w,
  state w = Some Decoded -> gunzips (run ops w) = gunzips w.
Proof.
  induction ops as [|o ops IH]; intros w Hd; [reflexivity|].
  rewrite run_cons, IH.
  - now apply gunzips_step_decoded.
  - now apply step_from_decoded.
Qed.

Lemma run_memo ops : forall w v,
  _payload (self w) = mkPayload None (Some v) ->
  truthy v = true ->
  pending w = [] ->
  log (run ops w) =
    (log w ++ flat_map (fun o => match o with
                                 | Call next => succeed next v
                                 | Done _ => []
                                 end) ops)%list /\
  self (run ops w) = self w /\ pending (run ops w) = [].
Proof.
  induction ops as [|o ops IH]; intros w v Hp Ht Hq.
  - cbn. now rewrite app_nil_r.
  - rewrite run_cons. destruct o as [next|i].
    + assert (E : step (Call next) w = emit (succeed next v) w).
      { cbn [Data.step]. unfold payload. rewrite Hp. cbn [buff decoded].
        now rewrite Ht. }
      rewrite E. destruct (IH (emit (succeed next v) w) v Hp Ht Hq) as (Hl & Hs & Hn).
      rewrite Hl, Hs, Hn. cbn [emit log self flat_map].
      now rewrite app_assoc.
    + assert (E : step (Done i) w = w).
      { cbn [Data.step]. rewrite Hq. now destruct i. }
      rewrite E. exact (IH w v Hp Ht Hq).
Qed.

End MoreDataFacts.

(** X1: once a truthy value is memoized and no decompression is in
    flight, every further call of payload is answered at once with that
    value and nothing else happens: the log grows by one callback
    invocation per call that passed a function, the envelope and the list
    of jobs stay as they are. *)
Theorem decoded_serves_memo
        (gunzip : Buffer -> JsError + Buffer) (JSON_parse : string -> JsError + JSON)
        (w : Data.World) (v : JSON) (ops : list Data.Op) :
  Data._payload (Data.self w) = Data.mkPayload None (Some v) ->
  truthy v = true ->
  Data.pending w = [] ->
  Data.log (Data.run gunzip JSON_parse ops w) =
    (Data.log w ++ flat_map (fun o => match o with
                                      | Data.Call next => Data.succeed next v
                                      | Data.Done _ => []
                                      end) ops)%list /\
  Data.self (Data.run gunzip JSON_parse ops w) = Data.self w /\
  Data.pending (Data.run gunzip JSON_parse ops w) = [].
Proof. intros Hp Ht Hq. now apply run_memo. Qed.

Lemma decoded_serves_memo_witness :
  Data.log (Data.run Stub.gunzip Stub.JSON_parse
              [Data.Call (Function 8); Data.Call NotAFunction; Data.Call (Function 9)]
              (Data.run Stub.gunzip Stub.JSON_parse
                 [Data.Call (Function 7); Data.Done 0]
                 (Data.init Stub.moment Stub.from_base64 Stub.push_rows))) =
  [Data.Gunzip Stub.gz_rows;
   Data.Next 7 None (Some (JArray [JNumber 1; JNumber 2; JNumber 3]));
   Data.Next 8 None (Some (JArray [JNumber 1; JNumber 2; JNumber 3]));
   Data.Next 9 None (Some (JArray [JNumber 1; JNumber 2; JNumber 3]))].
Proof.
  exact (proj1 (decoded_serves_memo Stub.gunzip Stub.JSON_parse
                  (Data.run Stub.gunzip Stub.JSON_parse
                     [Data.Call (Function 7); Data.Done 0]
                     (Data.init Stub.moment Stub.from_base64 Stub.push_rows))
                  (JArray [JNumber 1; JNumber 2; JNumber 3])
                  [Data.Call (Function 8); Data.Call NotAFunction; Data.Call (Function 9)]
                  eq_refl eq_refl eq_refl)).
Defined.

(** X2: once the envelope is Decoded no sequence of calls and completions
    starts another decompression, whatever the decoded value is and
    whatever jobs are still in flight. *)
Theorem decoded_never_decompresses
        (gunzip : Buffer -> JsError + Buffer) (JSON_parse : string -> JsError + JSON)
        (w : Data.World) (ops : list Data.Op) :
  Data.state w = Some Data.Decoded ->
  Data.gunzips (Data.run gunzip JSON_parse ops w) = Data.gunzips w.
Proof. intros H. now apply gunzips_run_decoded. Qed.

Lemma decoded_never_decompresses_witness :
  Data.gunzips (Data.run Stub.gunzip Stub.JSON_parse
                  [Data.Call (Function 8); Data.Done 0; Data.Call (Function 9)]
                  (Data.run Stub.gunzip Stub.JSON_parse
                     [Data.Call (Function 6); Data.Call (Function 7); Data.Done 0]
                     (Data.init Stub.moment Stub.from_base64 Stub.push_zero))) = 2%nat.
Proof.
  exact (decoded_never_decompresses Stub.gunzip Stub.JSON_parse
           (Data.run Stub.gunzip Stub.JSON_parse
              [Data.Call (Function 6); Data.Call (Function 7); Data.Done 0]
              (Data.init Stub.moment Stub.from_base64 Stub.push_zero))
           [Data.Call (Function 8); Data.Done 0; Data.Call (Function 9)]
           eq_refl).
Defined.

(** X3: two calls made before the first decompression completes each
    start a decompression of the same buffer, and when both complete each
    callback receives the decoded value (a falsy one as well); the
    envelope ends Decoded. *)
Theorem payload_concurrent_calls
        (moment : string -> Moment) (from_base64 : string -> Buffer)
        (gunzip : Buffer -> JsError + Buffer) (JSON_parse : string -> JsError + JSON)
        (json : Data.Wire) (f g : nat) (out : Buffer) (v : JSON) :
  gunzip (from_base64 (Data.w_payload json)) = inr out ->
  JSON_parse (toString_ascii out) = inr v ->
  let w := Data.run gunzip JSON_parse
             [Data.Call (Function f); Data.Call (Function g); Data.Done 0; Data.Done 0]
             (Data.init moment from_base64 json) in
  Data.log w =
    [Data.Gunzip (from_base64 (Data.w_payload json));
     Data.Gunzip (from_base64 (Data.w_payload json));
     Data.Next f None (Some v); Data.Next g None (Some v)] /\
  Data._payload (Data.self w) = Data.mkPayload None (Some v) /\
  Data.pending w = [].
Proof.
  intros Hg Hp. unfold Data.run. simpl.
  unfold Data.gunzip_done. simpl. rewrite Hg, Hp. simpl. rewrite Hg, Hp.
  repeat split.
Qed.

Lemma payload_concurrent_calls_witness :
  Data.log (Data.run Stub.gunzip Stub.JSON_parse
              [Data.Call (Function 7); Data.Call (Function 8); Data.Done 0; Data.Done 0]
              (Data.init Stub.moment Stub.from_base64 Stub.push_zero)) =
  [Data.Gunzip Stub.gz_zero; Data.Gunzip Stub.gz_zero;
   Data.Next 7 None (Some (JNumber 0)); Data.Next 8 None (Some (JNumber 0))].
Proof.
  exact (proj1 (payload_concurrent_calls Stub.moment Stub.from_base64 Stub.gunzip
                  Stub.JSON_parse Stub.push_zero 7 8 (Stub.bytes_of_string "0")
                  (JNumber 0) eq_refl eq_refl)).
Defined.

(** X4: a failed decode is not memoized.  After a decompression error or
    a JSON syntax error the envelope is still Compressed with its buffer,
    no job is left, and the next call of payload starts a new
    decompression of the same buffer. *)
Theorem payload_failure_retries
        (moment : string -> Moment) (from_base64 : string -> Buffer)
        (gunzip : Buffer -> JsError + Buffer) (JSON_parse : string -> JsError + JSON)
        (json : Data.Wire) (next again : Fn) :
  (exists err, gunzip (from_base64 (Data.w_payload json)) = inl err) \/
  (exists out e, gunzip (from_base64 (Data.w_payload json)) = inr out /\
                 JSON_parse (toString_ascii out) = inl e) ->
  let w := Data.run gunzip JSON_parse [Data.Call next; Data.Done 0]
                    (Data.init moment from_base64 json) in
  Data._payload (Data.self w) =
    Data.mkPayload (Some (from_base64 (Data.w_payload json))) None /\
  Data.pending w = [] /\
  Data.log (Data.payload again w) =
    (Data.log w ++ [Data.Gunzip (from_base64 (Data.w_payload json))])%list /\
  Data.pending (Data.payload again w) =
    [Data.mkJob (from_base64 (Data.w_payload json)) again].
Proof.
  intros [(err & Hg)|(out & e & Hg & Hp)]; unfold Data.run; simpl;
    unfold Data.gunzip_done; simpl; rewrite Hg; try rewrite Hp;
    repeat split.
Qed.

Lemma payload_failure_retries_witness :
  Data.log (Data.payload (Function 8)
              (Data.run Stub.gunzip Stub.JSON_parse [Data.Call (Function 7); Data.Done 0]
                 (Data.init Stub.moment Stub.from_base64 Stub.push_oops))) =
  [Data.Gunzip Stub.gz_oops; Data.Throw (SyntaxError "Unexpected token");
   Data.Gunzip Stub.gz_oops].
Proof.
  exact (proj1 (proj2 (proj2
           (payload_failure_retries Stub.moment Stub.from_base64 Stub.gunzip
              Stub.JSON_parse Stub.push_oops (Function 7) (Function 8)
              (or_intror (ex_intro _ (Stub.bytes_of_string "oops")
                 (ex_intro _ (SyntaxError "Unexpected token")
                    (conj eq_refl eq_refl)))))))).
Defined.

(** X5: payload called without a callback still decodes and memoizes, in
    silence; a decompression error or a syntax error is thrown from the
    completion and leaves the envelope Compressed. *)
Theorem payload_without_callback
        (moment : string -> Moment) (from_base64 : string -> Buffer)
        (gunzip : Buffer -> JsError + Buffer) (JSON_parse : string -> JsError + JSON)
        (json : Data.Wire) :
  let b := from_base64 (Data.w_payload json) in
  let w := Data.run gunzip JSON_parse [Data.Call NotAFunction; Data.Done 0]
                    (Data.init moment from_base64 json) in
  match gunzip b with
  | inl err =>
    Data.log w = [Data.Gunzip b; Data.Throw err] /\
    Data.state w = Some Data.Compressed
  | inr out =>
    match JSON_parse (toString_ascii out) with
    | inl e =>
      Data.log w = [Data.Gunzip b; Data.Throw e] /\
      Data.state w = Some Data.Compressed
    | inr v =>
      Data.log w = [Data.Gunzip b] /\
      Data._payload (Data.self w) = Data.mkPayload None (Some v)
    end
  end.
Proof.
  unfold Data.run. simpl. unfold Data.gunzip_done. simpl.
  destruct (gunzip (from_base64 (Data.w_payload json))) as [err|out];
    [split; reflexivity|].
  destruct (JSON_parse (toString_ascii out)) as [e|v]; split; reflexivity.
Qed.

Section LastBranch.

Import Data.

Variable gunzip : Buffer -> JsError + Buffer.
Variable JSON_parse : string -> JsError + JSON.
Variable b : Buffer.

Hypothesis gunzip_other : forall x, gunzip x <> inl no_payload.

Local Abbreviation falsy_decode := (Reach.falsy_decode gunzip JSON_parse b).
Local Abbreviation inv := (Reach.inv gunzip JSON_parse b).

Lemma in_fail_no_payload next e f :
  In (Next f (Some no_payload) None) (fail next e) -> e = no_payload.
Proof.
  destruct next; simpl; intros [H|[]]; [discriminate H|]. now inversion H.
Qed.

Lemma in_succeed_no_payload next v f :
  ~ In (Next f (Some no_payload) None) (succeed next v).
Proof. destruct next; simpl; [intros []|intros [H|[]]; discriminate H]. Qed.

Lemma Forall_firstn_skipn {A} (P : A -> Prop) l :
  Forall P l -> forall n, Forall P (firstn n l) /\ Forall P (skipn n l).
Proof.
  induction 1 as [|x l Hx Hl IH]; intros [|n]; cbn; try (split; now constructor).
  destruct (IH n) as [H1 H2]. split; [now constructor|exact H2].
Qed.

Lemma Forall_remove_nth {A} (P : A -> Prop) i l :
  Forall P l -> Forall P (remove_nth i l).
Proof.
  intros H. unfold remove_nth. apply Forall_app. split.
  - now apply Forall_firstn_skipn.
  - now apply (Forall_firstn_skipn P l H (S i)).
Qed.

Lemma inv_step o w : inv w -> inv (Data.step gunzip JSON_parse o w).
Proof.
  intros (Hj & Hp & Hl). destruct o as [next|i]; cbn [Data.step].
  - unfold payload.
    destruct Hp as [Hp|(out & v & Hg & Hq & Hp)]; rewrite Hp; cbn [buff decoded].
    + split; [|split]; cbn [pending self log].
      * apply Forall_app. split; [exact Hj|]. now repeat constructor.
      * now left.
      * intros f Hin. apply in_app_or in Hin. destruct Hin as [Hin|[Hin|[]]];
          [now apply (Hl f)|discriminate Hin].
    + destruct (truthy v) eqn:Ht; (split; [|split]); cbn [emit pending self log];
        try exact Hj; try (right; exists out, v; now auto).
      * intros f Hin. apply in_app_or in Hin. destruct Hin as [Hin|Hin];
          [now apply (Hl f)|]. now apply in_succeed_no_payload in Hin.
      * intros f Hin. exists out, v. auto.
  - destruct (nth_error (pending w) i) as [j|] eqn:Hn; [|now repeat split].
    assert (Hb : job_buff j = b).
    { apply nth_error_In in Hn. rewrite Forall_forall in Hj. now apply Hj. }
    unfold Data.gunzip_done. rewrite Hb.
    destruct (gunzip b) as [err|out] eqn:Hg; rewrite <- Hg in Hp.
    + split; [|split]; cbn [emit pending self log].
      * now apply Forall_remove_nth.
      * exact Hp.
      * intros f Hin. apply in_app_or in Hin. destruct Hin as [Hin|Hin];
          [now apply (Hl f)|]. apply in_fail_no_payload in Hin. subst err.
        now apply gunzip_other in Hg.
    + destruct (JSON_parse (toString_ascii out)) as [e|v] eqn:Hq;
        (split; [|split]); cbn [emit set_payload pending self log _payload].
      * now apply Forall_remove_nth.
      * exact Hp.
      * intros f Hin. apply in_app_or in Hin. destruct Hin as [Hin|[Hin|[]]];
          [now apply (Hl f)|discriminate Hin].
      * now apply Forall_remove_nth.
      * right. exists out, v. auto.
      * intros f Hin. apply in_app_or in Hin. destruct Hin as [Hin|Hin];
          [now apply (Hl f)|]. now apply in_succeed_no_payload in Hin.
Qed.

Lemma inv_run ops : forall w, inv w -> inv (Data.run gunzip JSON_parse ops w).
Proof.
  induction ops as [|o ops IH]; intros w H; [exact H|].
  apply (IH (Data.step gunzip JSON_parse o w)). now apply inv_step.
Qed.

End LastBranch.

(** X6: the last branch of payload (the TypeError "No payload buffer or
    decoded value?") is reached only by an envelope whose payload decodes
    to a falsy JSON value: if, after any sequence of calls and
    completions, a callback has been passed that error, then the buffer
    decompresses and parses, and the value is falsy.  (The decompressor
    is assumed not to produce that very error itself.) *)
Theorem last_branch_only_after_falsy
        (moment : string -> Moment) (from_base64 : string -> Buffer)
        (gunzip : Buffer -> JsError + Buffer) (JSON_parse : string -> JsError + JSON)
        (json : Data.Wire) (ops : list Data.Op) (f : nat) :
  (forall x, gunzip x <> inl Data.no_payload) ->
  In (Data.Next f (Some Data.no_payload) None)
     (Data.log (Data.run gunzip JSON_parse ops (Data.init moment from_base64 json))) ->
  exists out v,
    gunzip (from_base64 (Data.w_payload json)) = inr out /\
    JSON_parse (toString_ascii out) = inr v /\
    truthy v = false.
Proof.
  intros Hg Hin.
  assert (H0 : Reach.inv gunzip JSON_parse (from_base64 (Data.w_payload json))
                 (Data.init moment from_base64 json)).
  { split; [constructor|]. split; [now left|]. intros g []. }
  destruct (inv_run gunzip JSON_parse _ Hg ops _ H0) as (_ & _ & Hl).
  exact (Hl f Hin).
Qed.

Lemma stub_gunzip_other x : Stub.gunzip x <> inl Data.no_payload.
Proof.
  unfold Stub.gunzip.
  destruct (Stub.buffer_eqb x Stub.gz_zero); [discriminate|].
  destruct (Stub.buffer_eqb x Stub.gz_rows); [discriminate|].
  destruct (Stub.buffer_eqb x Stub.gz_oops); discriminate.
Defined.

Lemma last_branch_only_after_falsy_witness :
  exists out v,
    Stub.gunzip (Stub.from_base64 (Data.w_payload Stub.push_zero)) = inr out /\
    Stub.JSON_parse (toString_ascii out) = inr v /\
    truthy v = false.
Proof.
  apply (last_branch_only_after_falsy Stub.moment Stub.from_base64 Stub.gunzip
           Stub.JSON_parse Stub.push_zero
           [Data.Call (Function 7); Data.Done 0; Data.Call (Function 8)] 8
           stub_gunzip_other).
  vm_compute. right. right. left. reflexivity.
Defined.

(** * Further properties of the [Client] *)

Section QueryFacts.

Import Node.

Lemma append_nil_r (s : string) : s ++ "" = s.
Proof. induction s as [|c s IH]; simpl; [reflexivity|now rewrite IH]. Qed.

Lemma hex_roundtrip c :
  hexValue (hexDigit (N.div (N_of_ascii c) 16)) = Some (N.div (N_of_ascii c) 16) /\
  hexValue (hexDigit (N.modulo (N_of_ascii c) 16)) = Some (N.modulo (N_of_ascii c) 16) /\
  ascii_of_N (16 * N.div (N_of_ascii c) 16 + N.modulo (N_of_ascii c) 16) = c.
Proof.
  destruct c as [[] [] [] [] [] [] [] []]; vm_compute; repeat split.
Qed.

Lemma unreserved_not_percent c : unreserved c = true -> Ascii.eqb c "%" = false.
Proof.
  intros H. destruct (Ascii.eqb_spec c "%") as [E|]; [|reflexivity].
  subst c. vm_compute in H. discriminate H.
Qed.

(** Percent-decoding undoes percent-encoding. *)
Lemma unescape_escape s : unescape (escape s) = s.
Proof.
  induction s as [|c s IH]; [reflexivity|]. cbn [escape].
  destruct (unreserved c) eqn:Hu.
  - cbn [unescape]. rewrite (unreserved_not_percent c Hu). now rewrite IH.
  - destruct (hex_roundtrip c) as (H1 & H2 & H3).
    cbn [unescape]. change (Ascii.eqb "%" "%") with true. cbv iota.
    rewrite H1, H2, H3. now rewrite IH.
Qed.

Lemma unreserved_not_sep c d :
  In c separators -> unreserved d = true -> Ascii.eqb c d = false.
Proof.
  intros Hc Hd. destruct (Ascii.eqb_spec c d) as [E|]; [|reflexivity].
  subst d. simpl in Hc.
  destruct Hc as [<-|[<-|[<-|[<-|[]]]]]; vm_compute in Hd; discriminate Hd.
Qed.

Lemma hexDigit_not_sep c d :
  In c separators ->
  Ascii.eqb c "%" = false /\
  Ascii.eqb c (hexDigit (N.div (N_of_ascii d) 16)) = false /\
  Ascii.eqb c (hexDigit (N.modulo (N_of_ascii d) 16)) = false.
Proof.
  intros Hc. simpl in Hc.
  destruct Hc as [<-|[<-|[<-|[<-|[]]]]];
    destruct d as [[] [] [] [] [] [] [] []]; vm_compute; repeat split.
Qed.

Lemma after_escape_app c s r :
  In c separators -> after c (escape s ++ r) = after c r.
Proof.
  intros Hc. induction s as [|d s IH]; [reflexivity|]. cbn [escape].
  destruct (unreserved d) eqn:Hu; cbn [append after].
  - now rewrite (unreserved_not_sep c d Hc Hu).
  - destruct (hexDigit_not_sep c d Hc) as (H0 & H1 & H2). now rewrite H0, H1, H2.
Qed.

Lemma before_escape_app c s r :
  In c separators -> before c (escape s ++ r) = escape s ++ before c r.
Proof.
  intros Hc. induction s as [|d s IH]; [reflexivity|]. cbn [escape].
  destruct (unreserved d) eqn:Hu; cbn [append before].
  - rewrite (unreserved_not_sep c d Hc Hu). now rewrite IH.
  - destruct (hexDigit_not_sep c d Hc) as (H0 & H1 & H2).
    rewrite H0, H1, H2. now rewrite IH.
Qed.

Lemma split_not_nil c s : split c s <> [].
Proof.
  induction s as [|d s IH]; cbn [split]; [discriminate|].
  destruct (Ascii.eqb c d); [discriminate|].
  destruct (split c s); [contradiction|discriminate].
Qed.

Lemma split_escape_app c s r :
  In c separators ->
  split c (escape s ++ r) =
  match split c r with
  | [] => []
  | w :: ws => (escape s ++ w) :: ws
  end.
Proof.
  intros Hc. induction s as [|d s IH].
  - cbn. destruct (split c r) eqn:E; [now apply split_not_nil in E|reflexivity].
  - cbn [escape]. destruct (split c r) as [|w ws] eqn:E;
      [now apply split_not_nil in E|].
    destruct (unreserved d) eqn:Hu; cbn [append split].
    + rewrite (unreserved_not_sep c d Hc Hu). now rewrite IH.
    + destruct (hexDigit_not_sep c d Hc) as (H0 & H1 & H2).
      rewrite H0, H1, H2. now rewrite IH.
Qed.

Lemma after_app_none c a r : after c a = None -> after c (a ++ r) = after c r.
Proof.
  induction a as [|d a IH]; [reflexivity|]. cbn [append after].
  destruct (Ascii.eqb c d); [discriminate|exact IH].
Qed.

Lemma before_hash h :
  h = "" \/ startsWith "#" h = true -> before "#" h = "".
Proof.
  intros [->|H]; [reflexivity|]. destruct h as [|d h]; [reflexivity|].
  cbn in H |- *. now rewrite H.
Qed.

End QueryFacts.

Section CommandUrls.

Import Node.

(** The url of [/serv/start] and [/serv/stop] for a service url without a
    query string. *)
Lemma format_token u (path : string) (token : option string) :
  path = "/serv/start" \/ path = "/serv/stop" ->
  search u = None ->
  format (mkUrl (origin u) (Some path) (search u) (Some [("token", token)]) (hash u)) =
  origin u ++ path ++ "?token=" ++ escape (stringifyPrimitive token) ++ hash u.
Proof.
  intros Hp Hs. unfold format, stringify. rewrite Hs.
  destruct Hp as [-> | ->]; simpl;
    rewrite escapeHash_escape; rewrite ?app_assoc_string; simpl;
    rewrite ?app_assoc_string; reflexivity.
Qed.

(** The url of [/register] for a service url without a query string. *)
Lemma format_register u :
  search u = None ->
  format (mkUrl (origin u) (Some "/register") (search u) None (hash u)) =
  origin u ++ "/register" ++ hash u.
Proof. intros Hs. unfold format. rewrite Hs. reflexivity. Qed.

(** What the receiver reads from [origin/path?qs#hash]. *)
Lemma params_of_url (o path qs h : string) :
  after "?" o = None -> after "?" path = None ->
  query_params (o ++ path ++ "?" ++ qs ++ h) =
  map (fun kv => (unescape (before "=" kv), unescape (stringifyPrimitive (after "=" kv))))
      (filter (fun kv => negb (String.eqb kv "")) (split "&" (before "#" (qs ++ h)))).
Proof.
  intros Ho Hp. unfold query_params.
  rewrite (after_app_none _ o _ Ho), (after_app_none _ path _ Hp).
  cbn [append after]. change (Ascii.eqb "?" "?") with true. cbv iota. reflexivity.
Qed.

Lemma sep_amp : In "&"%char separators.
Proof. simpl. tauto. Qed.

Lemma sep_hash : In "#"%char separators.
Proof. simpl. tauto. Qed.

Lemma params_token (o path h t : string) :
  after "?" o = None -> after "?" path = None ->
  h = "" \/ startsWith "#" h = true ->
  query_params (o ++ path ++ "?token=" ++ escape t ++ h) = [("token", t)].
Proof.
  intros Ho Hp Hh.
  change (o ++ path ++ "?token=" ++ escape t ++ h)
    with (o ++ path ++ "?" ++ ("token=" ++ escape t) ++ h).
  rewrite (params_of_url o path ("token=" ++ escape t) h Ho Hp).
  simpl. rewrite (before_escape_app "#" t h sep_hash), (before_hash h Hh).
  rewrite (split_escape_app "&" t "" sep_amp).
  simpl. rewrite append_nil_r. now rewrite unescape_escape.
Qed.

Lemma params_token_date (o h t d : string) :
  after "?" o = None ->
  h = "" \/ startsWith "#" h = true ->
  query_params (o ++ "/serv/reset?token=" ++ escape t ++ "&date=" ++ escape d ++ h) =
  [("token", t); ("date", d)].
Proof.
  intros Ho Hh.
  assert (E : o ++ "/serv/reset?token=" ++ escape t ++ "&date=" ++ escape d ++ h =
              o ++ "/serv/reset" ++ "?" ++
              ("token=" ++ escape t ++ "&date=" ++ escape d) ++ h).
  { simpl. rewrite !app_assoc_string. reflexivity. }
  rewrite E. clear E.
  rewrite (params_of_url o "/serv/reset" _ h Ho eq_refl).
  rewrite !app_assoc_string.
  simpl. rewrite (before_escape_app "#" t _ sep_hash).
  simpl. rewrite (before_escape_app "#" d h sep_hash), (before_hash h Hh).
  rewrite (split_escape_app "&" t _ sep_amp).
  simpl. rewrite (split_escape_app "&" d "" sep_amp).
  simpl. rewrite !append_nil_r. now rewrite !unescape_escape.
Qed.

End CommandUrls.

(** X7: with a secret configured and a service url that has no query
    string of its own, the receiver of the GET of start and of stop reads
    back exactly one parameter, token, whose value is the secret, whatever
    characters the secret has; for restart it reads token and date, the
    date being the formatted moment, or the empty string without one. *)
Theorem command_params_roundtrip
        (next : Fn) (when : Client.When) (c : Client.Instance) :
  Node.truthy_str (Client._secret c) = true ->
  Node.search (Client._servUrl c) = None ->
  Node.after "?" (Node.origin (Client._servUrl c)) = None ->
  Node.hash (Client._servUrl c) = "" \/
    Node.startsWith "#" (Node.hash (Client._servUrl c)) = true ->
  map (fun r => Node.query_params (Client.r_url r))
      (Client.sent (fst (Client.start next c))) =
    [[("token", Node.stringifyPrimitive (Client._secret c))]] /\
  map (fun r => Node.query_params (Client.r_url r))
      (Client.sent (fst (Client.stop next c))) =
    [[("token", Node.stringifyPrimitive (Client._secret c))]] /\
  map (fun r => Node.query_params (Client.r_url r))
      (Client.sent (fst (Client.restart next when c))) =
    [[("token", Node.stringifyPrimitive (Client._secret c));
      ("date", Node.stringifyPrimitive (Client.date_of when))]].
Proof.
  intros Hs Hq Ho Hh. unfold Client.start, Client.stop, Client.restart.
  rewrite !(command_with_secret _ _ _ _ Hs).
  unfold Client._remoteUrl, Client.restart_query. cbn [fst Client.sent flat_map app map].
  rewrite (format_token (Client._servUrl c) "/serv/start" _ (or_introl eq_refl) Hq).
  rewrite (format_token (Client._servUrl c) "/serv/stop" _ (or_intror eq_refl) Hq).
  rewrite (format_reset (Client._servUrl c) _ _ Hq).
  cbn [Client.r_url].
  rewrite (params_token _ "/serv/start" _ _ Ho eq_refl Hh).
  rewrite (params_token _ "/serv/stop" _ _ Ho eq_refl Hh).
  rewrite (params_token_date _ _ _ _ Ho Hh).
  repeat split.
Qed.

Lemma command_params_roundtrip_witness :
  map (fun r => Node.query_params (Client.r_url r))
      (Client.sent (fst (Client.start (Function 9) (Stub.client (Some "a&b=c #1"))))) =
  [[("token", "a&b=c #1")]].
Proof.
  exact (proj1 (command_params_roundtrip (Function 9) Client.Absent
                  (Stub.client (Some "a&b=c #1")) eq_refl eq_refl eq_refl
                  (or_introl eq_refl))).
Defined.

(** X8: the date that restart sends cannot tell the morning from the
    afternoon: a moment in the first half of the day and the moment twelve
    hours later give the same request. *)
Theorem restart_am_pm_collide (next : Fn) (m : Moment) (c : Client.Instance) :
  (0 <= m_hours m < 12)%Z ->
  Client.restart next
    (Client.AMoment (mkMoment (m_valid m) (m_year m) (m_month m) (m_date m)
                              (m_hours m + 12) (m_minutes m) (m_seconds m))) c =
  Client.restart next (Client.AMoment m) c.
Proof.
  intros Hh. unfold Client.restart, Client.restart_query, Client.date_of.
  assert (E : Node.format_moment
                (mkMoment (m_valid m) (m_year m) (m_month m) (m_date m)
                          (m_hours m + 12) (m_minutes m) (m_seconds m)) =
              Node.format_moment m).
  { unfold Node.format_moment. cbn [m_valid m_year m_month m_date m_hours m_minutes m_seconds].
    replace ((m_hours m + 12) mod 12)%Z with (m_hours m mod 12)%Z; [reflexivity|].
    replace (m_hours m + 12)%Z with (m_hours m + 1 * 12)%Z by lia.
    now rewrite Z.mod_add by lia. }
  now rewrite E.
Qed.

Lemma restart_am_pm_collide_witness :
  Client.restart (Function 9) (Client.AMoment (mkMoment true 2024 3 5 (2 + 12) 30 0))
                 (Stub.client (Some "s3")) =
  Client.restart (Function 9) (Client.AMoment (mkMoment true 2024 3 5 2 30 0))
                 (Stub.client (Some "s3")).
Proof.
  refine (restart_am_pm_collide (Function 9) (mkMoment true 2024 3 5 2 30 0)
            (Stub.client (Some "s3")) _).
  simpl. lia.
Defined.

(** X9: with a secret configured, the whole exchange of start, stop or
    restart is one GET followed by one report.  A callback is invoked
    exactly once: with the transport error if there is one, with an Error
    whose message holds the status code and the body if the status is not
    200, and with null otherwise.  Without a callback an error is thrown
    from the reply and a good reply passes in silence. *)
Theorem command_outcome
        (f : nat) (when : Client.When) (c : Client.Instance) (reply : Client.Reply) :
  Node.truthy_str (Client._secret c) = true ->
  let err :=
    match reply with
    | Client.Failed e => Some e
    | Client.Answered code b =>
      if Z.eqb code 200 then None
      else Some (Error ("Bad status code: " ++ Node.dec code ++ Client.newline ++
                        "Error: " ++ b))
    end in
  forall op,
    In op [Client.start; Client.stop; fun next => Client.restart next when] ->
    exists url,
      Client.exchange (fst (op (Function f) c))
                      (Client.command_reply (Function f) reply) =
        [Client.Send (Client.mkRequest Client.GET url None (Client.timeout c));
         Client.Callback f err] /\
      Client.exchange (fst (op NotAFunction c))
                      (Client.command_reply NotAFunction reply) =
        Client.Send (Client.mkRequest Client.GET url None (Client.timeout c)) ::
        match err with Some e => [Client.Raise e] | None => [] end.
Proof.
  intros Hs err op Hin.
  assert (E : exists path q, forall next, op next c = Client.command path q next c).
  { simpl in Hin. destruct Hin as [<-|[<-|[<-|[]]]];
      [exists "/serv/start", [("token", Client._secret c)]
      |exists "/serv/stop", [("token", Client._secret c)]
      |exists "/serv/reset", (Client.restart_query when c)]; reflexivity. }
  destruct E as (path & q & E). rewrite !E.
  rewrite !(command_with_secret path q _ c Hs).
  eexists. unfold Client.exchange, Client.command_reply, Client.report. cbn [Client.sent flat_map app].
  subst err. destruct reply as [e|code b]; [split; reflexivity|].
  destruct (Z.eqb code 200); split; reflexivity.
Qed.

Lemma command_outcome_witness :
  exists url,
    Client.exchange (fst (Client.start (Function 9) (Stub.client (Some "s3"))))
                    (Client.command_reply (Function 9) (Client.Answered 403 "forbidden")) =
      [Client.Send (Client.mkRequest Client.GET url None (Some 15000%Z));
       Client.Callback 9
         (Some (Error ("Bad status code: 403" ++ Client.newline ++ "Error: forbidden")))] /\
    Client.exchange (fst (Client.start NotAFunction (Stub.client (Some "s3"))))
                    (Client.command_reply NotAFunction (Client.Answered 403 "forbidden")) =
      [Client.Send (Client.mkRequest Client.GET url None (Some 15000%Z));
       Client.Raise
         (Error ("Bad status code: 403" ++ Client.newline ++ "Error: forbidden"))].
Proof.
  exact (command_outcome 9 Client.Absent (Stub.client (Some "s3"))
           (Client.Answered 403 "forbidden") eq_refl Client.start (or_introl eq_refl)).
Defined.

Section History.

Import Session.

Lemma same_service_refl c : same_service c c.
Proof. repeat split. Qed.

Lemma same_service_trans a b c :
  same_service a b -> same_service b c -> same_service a c.
Proof.
  intros (A1 & A2 & A3 & A4 & A5 & A6) (B1 & B2 & B3 & B4 & B5 & B6).
  repeat split; congruence.
Qed.

Lemma command_same path q next c : same_service c (snd (Client.command path q next c)).
Proof.
  unfold Client.command. destruct (Client.guard next c); repeat split.
Qed.

(** No method changes what the requests are built from. *)
Lemma perform_same o c : same_service c (snd (perform o c)).
Proof.
  destruct o as [| |next|next|next when|event handler]; cbn [perform].
  1, 2: repeat split.
  1: exact (command_same "/serv/start" _ next c).
  1: exact (command_same "/serv/stop" _ next c).
  1: exact (command_same "/serv/reset" _ next c).
  unfold Client.on.
  destruct (Client.isString event && isFunction handler)%bool; [|apply same_service_refl].
  destruct (Client.is_case "error" event); [repeat split|].
  destruct (Client.is_case "status" event); [repeat split|].
  destruct (Client.is_case "data" event); repeat split.
Qed.

Lemma after_all_same ops : forall c, same_service c (after_all ops c).
Proof.
  induction ops as [|o ops IH]; intros c; [apply same_service_refl|].
  cbn [after_all]. eapply same_service_trans; [apply perform_same|apply IH].
Qed.

Lemma remoteUrl_same path q c c' :
  same_service c c' ->
  fst (Client._remoteUrl path q c) = fst (Client._remoteUrl path q c').
Proof.
  intros (H1 & H2 & H3 & _). unfold Client._remoteUrl. cbn [fst].
  now rewrite H1, H2, H3.
Qed.

Lemma command_sent_same path q q' next c c' :
  same_service c c' -> q = q' ->
  Client.sent (fst (Client.command path q next c)) =
  Client.sent (fst (Client.command path q' next c')).
Proof.
  intros H <-. pose proof (remoteUrl_same path (Some q) c c' H) as Hu.
  destruct H as (_ & _ & _ & _ & Hs & Ht).
  unfold Client.command, Client.guard. rewrite <- Hs.
  destruct (negb (Node.truthy_str (Client._secret c))); [destruct next|]; cbn;
    try reflexivity; unfold Client._remoteUrl in *; cbn in *; now rewrite Hu, Ht.
Qed.

Lemma perform_sent_same o c c' :
  same_service c c' ->
  Client.sent (fst (perform o c)) = Client.sent (fst (perform o c')).
Proof.
  intros H. destruct o as [| |next|next|next when|event handler]; cbn [perform].
  - pose proof (remoteUrl_same "/register" None c c' H) as Hu.
    destruct H as (_ & _ & _ & Hl & _ & Ht).
    unfold Client.connect, Client._remoteUrl in *. cbn in *. now rewrite Hu, Hl, Ht.
  - pose proof (remoteUrl_same "/register" None c c' H) as Hu.
    destruct H as (_ & _ & _ & Hl & _ & Ht).
    unfold Client.disconnect, Client._remoteUrl in *. cbn in *. now rewrite Hu, Hl, Ht.
  - unfold Client.start. apply (command_sent_same "/serv/start"); [exact H|].
    destruct H as (_ & _ & _ & _ & Hs & _). now rewrite Hs.
  - unfold Client.stop. apply (command_sent_same "/serv/stop"); [exact H|].
    destruct H as (_ & _ & _ & _ & Hs & _). now rewrite Hs.
  - unfold Client.restart. apply (command_sent_same "/serv/reset"); [exact H|].
    destruct H as (_ & _ & _ & _ & Hs & _). unfold Client.restart_query. now rewrite Hs.
  - unfold Client.on.
    destruct (Client.isString event && isFunction handler)%bool; [|reflexivity].
    destruct (Client.is_case "error" event); [reflexivity|].
    destruct (Client.is_case "status" event); [reflexivity|].
    destruct (Client.is_case "data" event); [reflexivity|].
    cbn [fst]. destruct (Client.error (Client._handlers c)),
                        (Client.error (Client._handlers c')); reflexivity.
Qed.

End History.

(** X10: the requests of a method do not depend on what was called
    before.  [_remoteUrl] writes the path and the query of each call into
    the shared service url, but every call overwrites both, so after any
    sequence of connect, disconnect, start, stop, restart and on a method
    sends the very requests it would send on the fresh client (connect
    after start, for one, carries no token). *)
Theorem requests_ignore_history
        (ops : list Session.Op) (o : Session.Op) (c : Client.Instance) :
  Client.sent (fst (Session.perform o (Session.after_all ops c))) =
  Client.sent (fst (Session.perform o c)).
Proof.
  symmetry. apply perform_sent_same. apply after_all_same.
Qed.

(** X11: connect, for a service url without a query string, sends one PUT
    to <service>/register whose JSON body is {href: <the local address>,
    verb: "POST"}, and its callback is invoked exactly once: with the
    transport error, with an Error naming the status, the url and the
    body when the status is not 200, and with null otherwise. *)
Theorem connect_outcome
        (inspect : string -> string) (f : nat) (c : Client.Instance)
        (reply : Client.Reply) :
  Node.search (Client._servUrl c) = None ->
  let uri := Node.origin (Client._servUrl c) ++ "/register" ++
             Node.hash (Client._servUrl c) in
  Client.exchange (fst (Client.connect c))
                  (Client.connect_reply inspect uri (Function f) reply) =
  [Client.Send (Client.mkRequest Client.PUT uri
      (Some (JObject [("href", JObject (Client._local c)); ("verb", JString "POST")]))
      (Client.timeout c));
   Client.Callback f
     match reply with
     | Client.Failed e => Some e
     | Client.Answered code b =>
       if Z.eqb code 200 then None
       else Some (Error ("Bad status code: " ++ Node.dec code ++ Client.newline ++
                         "Error: " ++ uri ++ ", " ++ inspect b))
     end].
Proof.
  intros Hs uri. unfold Client.connect, Client._remoteUrl.
  rewrite (format_register (Client._servUrl c) Hs).
  unfold Client.exchange, Client.connect_reply, Client.report.
  cbn [fst Client.sent flat_map app Client._local Client.timeout truthy Client.prop].
  destruct reply as [e|code b]; [reflexivity|].
  destruct (Z.eqb code 200); reflexivity.
Qed.

Lemma connect_outcome_witness :
  Client.exchange (fst (Client.connect (Stub.client None)))
    (Client.connect_reply Stub.inspect "http://stock-server.example.com/register"
       (Function 9) (Client.Answered 200 "ok")) =
  [Client.Send (Client.mkRequest Client.PUT "http://stock-server.example.com/register"
      (Some (JObject [("href", JObject Stub.local); ("verb", JString "POST")]))
      (Some 15000%Z));
   Client.Callback 9 None].
Proof.
  exact (connect_outcome Stub.inspect 9 (Stub.client None) (Client.Answered 200 "ok")
           eq_refl).
Defined.

(** X12: when the service url carries a query string of its own, the url
    that start, stop and restart request is the service url with the path
    replaced and that query string kept: the query built by the method,
    and with it the token, is not in the url. *)
Theorem service_query_hides_token
        (next : Fn) (when : Client.When) (c : Client.Instance) (s : string) :
  Node.truthy_str (Client._secret c) = true ->
  Node.search (Client._servUrl c) = Some s ->
  s <> "" ->
  let rest := Node.escapeHash (if Node.startsWith "?" s then s else "?" ++ s) ++
              Node.hash (Client._servUrl c) in
  map Client.r_url (Client.sent (fst (Client.start next c))) =
    [Node.origin (Client._servUrl c) ++ "/serv/start" ++ rest] /\
  map Client.r_url (Client.sent (fst (Client.stop next c))) =
    [Node.origin (Client._servUrl c) ++ "/serv/stop" ++ rest] /\
  map Client.r_url (Client.sent (fst (Client.restart next when c))) =
    [Node.origin (Client._servUrl c) ++ "/serv/reset" ++ rest].
Proof.
  intros Hk Hs Hn rest. unfold Client.start, Client.stop, Client.restart.
  rewrite !(command_with_secret _ _ _ _ Hk).
  unfold Client._remoteUrl, Node.format.
  cbn [fst Client.sent flat_map app map Client.r_url Node.origin Node.pathname
       Node.search Node.query Node.hash].
  rewrite Hs. cbn [Node.truthy_str Node.stringifyPrimitive].
  assert (E : String.eqb s "" = false).
  { destruct (String.eqb_spec s ""); [contradiction|reflexivity]. }
  rewrite E. cbn [negb andb].
  subst rest. destruct (Node.startsWith "?" s); rewrite ?E; simpl; repeat split.
Qed.

Lemma service_query_hides_token_witness :
  map Client.r_url
      (Client.sent (fst (Client.start (Function 9)
         (Client.mkClient
            (Node.mkUrl "http://stock-server.example.com" None (Some "?v=2") None "")
            Stub.local (Some "s3") None Stub.handlers)))) =
  ["http://stock-server.example.com/serv/start?v=2"].
Proof.
  refine (proj1 (service_query_hides_token (Function 9) Client.Absent
                   (Client.mkClient
                      (Node.mkUrl "http://stock-server.example.com" None (Some "?v=2")
                                  None "")
                      Stub.local (Some "s3") None Stub.handlers)
                   "?v=2" eq_refl eq_refl _)).
  discriminate.
Defined.

(** X13: on with one of the three names installs the handler in that slot
    and does nothing else; from then on the matching inbound POST is
    handed to the new handler while the other endpoint goes on as before,
    and a handler installed for error is the one a later unknown event is
    reported to. *)
Theorem on_installs_handler
        (moment : string -> Moment) (from_base64 : string -> Buffer)
        (f g : nat) (c : Client.Instance) (name : string)
        (dreq : Client.Req Data.Wire) (sreq : Client.Req (option string)) :
  let cd := Client.on (Client.Str "data") (Function f) c in
  let cs := Client.on (Client.Str "status") (Function f) c in
  let ce := Client.on (Client.Str "error") (Function f) c in
  (fst cd = [] /\ fst cs = [] /\ fst ce = []) /\
  (Client.handle moment from_base64 (snd cd) (Client.PostData dreq) =
     [Client.Respond 200 Client.success;
      Client.OnData f (Data.new moment from_base64 (Client.body dreq)) (Client.ip dreq)] /\
   Client.handle moment from_base64 (snd cd) (Client.PostSignal sreq) =
     Client.handle moment from_base64 c (Client.PostSignal sreq)) /\
  (Client.handle moment from_base64 (snd cs) (Client.PostSignal sreq) =
     [Client.Respond 200 Client.success;
      Client.OnStatus f (Client.body sreq) (Client.ip sreq)] /\
   Client.handle moment from_base64 (snd cs) (Client.PostData dreq) =
     Client.handle moment from_base64 c (Client.PostData dreq)) /\
  (fst (Client.on (Client.StrObject name) (Function g) (snd ce)) =
     [Client.OnError f (Error ("Unknown event: " ++ name))] /\
   Client.handle moment from_base64 (snd ce) (Client.PostData dreq) =
     Client.handle moment from_base64 c (Client.PostData dreq) /\
   Client.handle moment from_base64 (snd ce) (Client.PostSignal sreq) =
     Client.handle moment from_base64 c (Client.PostSignal sreq)).
Proof. repeat split. Qed.

(** X14: on with a function handler and an event that is a string but
    none of error, status and data (a String object never is one of them,
    whatever its text) installs nothing: the client is unchanged and the
    current error handler is called once, with the Error "Unknown event:
    <name>" as its only argument.  The default error handler, which reads
    the error from its second argument, logs nothing for it. *)
Theorem on_unknown_event (event : Client.Name) (f h : nat) (c : Client.Instance) :
  match event with
  | Client.Str s => s <> "error" /\ s <> "status" /\ s <> "data"
  | Client.StrObject _ => True
  | Client.NotAString => False
  end ->
  Client.error (Client._handlers c) = Function h ->
  Client.on event (Function f) c =
    ([Client.OnError h (Error ("Unknown event: " ++ Client.name_text event))], c) /\
  flat_map Defaults.at_effect (fst (Client.on event (Function f) c)) = [].
Proof.
  intros He Hh. unfold Client.on.
  destruct event as [s|s|]; [|cbn; rewrite Hh; split; reflexivity|contradiction].
  destruct He as (H1 & H2 & H3).
  cbn [Client.isString isFunction andb Client.is_case].
  destruct (String.eqb_spec s "error"); [contradiction|].
  destruct (String.eqb_spec s "status"); [contradiction|].
  destruct (String.eqb_spec s "data"); [contradiction|].
  rewrite Hh. split; reflexivity.
Qed.

Lemma on_unknown_event_witness :
  Client.on (Client.StrObject "data") (Function 5) (Stub.client None) =
  ([Client.OnError 1 (Error "Unknown event: data")], Stub.client None).
Proof.
  exact (proj1 (on_unknown_event (Client.StrObject "data") 5 1 (Stub.client None)
                  I eq_refl)).
Defined.

(** * Properties of the constructor and of the default handlers *)

(** [slice(0, -1)] drops the last character, whichever it is. *)
Lemma slice_last (base : string) (ch : ascii) :
  Construct.slice_0_m1 (base ++ String ch "") = base.
Proof.
  unfold Construct.slice_0_m1. rewrite list_ascii_app. cbn [list_ascii_of_string].
  rewrite removelast_last. apply string_of_list_ascii_of_string.
Qed.

(** X15: when the constructor returns a client for a local application
    (isLocal), the environment had a pathname and a locals.remote, and
    the client registers, on connect, the address {protocol: "http:",
    port: <the port of the environment>, pathname: <the pathname>} as the
    href of the body; its secret and its timeout are those of
    locals.remote, the timeout without any default. *)
Theorem construct_local_connect
        (parse : string -> Node.Url) (parse_fields : string -> list (string * JSON))
        (defaults : Client.Handlers) (config : Construct.Config)
        (env : Construct.AppEnv) (c : Client.Instance) :
  Construct.create parse parse_fields defaults config = Normal c ->
  Construct.c_env config = Some env ->
  Construct.e_isLocal env = true ->
  exists p r,
    Construct.pathname env = Some p /\
    option_map Construct.l_remote (Construct.e_locals env) = Some (Some r) /\
    map Client.r_json (Client.sent (fst (Client.connect c))) =
      [Some (JObject
         [("href", JObject [("protocol", JString "http:");
                            ("port", JNumber (Construct.e_port env));
                            ("pathname", JString p)]);
          ("verb", JString "POST")])] /\
    map Client.r_timeout (Client.sent (fst (Client.connect c))) =
      [Construct.rem_timeout r] /\
    Client._secret c = Construct.rem_secret r.
Proof.
  intros H He Hl. unfold Construct.create, Construct.pathname in *.
  destruct (Construct.c_app config); [|discriminate H]. cbn [negb] in H.
  rewrite He in H.
  destruct (Construct.e_serviceURL env); [|discriminate H].
  rewrite Hl in H. cbn [negb] in H.
  destruct (Construct.e_locals env) as [l|]; [|discriminate H].
  cbn [option_map].
  destruct (Construct.l_remote l) as [r|]; [|discriminate H].
  destruct (Construct.l_pathname l) as [p|]; [|discriminate H].
  injection H as <-. exists p, r. repeat split.
Qed.

Lemma construct_local_connect_witness :
  exists p r,
    Some "/client" = Some p /\
    Some (Some (Construct.mkRemote None None)) = Some (Some r) /\
    map Client.r_json
        (Client.sent (fst (Client.connect
           (Client.mkClient (Node.mkUrl "http://stock-server.example.com" None None None "")
              Stub.local None None Stub.handlers)))) =
      [Some (JObject
         [("href", JObject [("protocol", JString "http:"); ("port", JNumber 8080);
                            ("pathname", JString p)]);
          ("verb", JString "POST")])] /\
    map Client.r_timeout
        (Client.sent (fst (Client.connect
           (Client.mkClient (Node.mkUrl "http://stock-server.example.com" None None None "")
              Stub.local None None Stub.handlers)))) =
      [Construct.rem_timeout r] /\
    None = Construct.rem_secret r.
Proof.
  exact (construct_local_connect (fun s => Node.mkUrl s None None None "")
           (fun _ => []) Stub.handlers
           (Construct.complete "http://stock-server.example.com/" None)
           (Construct.mkEnv (Some "http://stock-server.example.com/") true None 8080
              (Some (Construct.mkLocals (Some "/client")
                       (Some (Construct.mkRemote None None)))))
           (Client.mkClient (Node.mkUrl "http://stock-server.example.com" None None None "")
              Stub.local None None Stub.handlers)
           eq_refl eq_refl eq_refl).
Defined.

(** X16: the last character of the service url never reaches the
    client, whatever it is: two configurations that differ only in that
    character construct the same client or fail alike, and the service
    url of a constructed client is the parse of the text without it (a
    service url without a trailing slash loses the last character of its
    text all the same). *)
Theorem construct_cuts_service_url
        (parse : string -> Node.Url) (parse_fields : string -> list (string * JSON))
        (defaults : Client.Handlers)
        (app isLocal : bool) (url : option string) (port : Z)
        (locals : option Construct.Locals) (err st dt : option Fn)
        (base : string) (a b : ascii) (c : Client.Instance) :
  let config ch :=
    Construct.mkConfig app
      (Some (Construct.mkEnv (Some (base ++ String ch "")) isLocal url port locals))
      err st dt in
  Construct.create parse parse_fields defaults (config a) = Normal c ->
  Client._servUrl c = parse base /\
  Construct.create parse parse_fields defaults (config b) = Normal c.
Proof.
  intros config H. unfold config, Construct.create in *.
  cbn [Construct.c_app Construct.c_env Construct.e_serviceURL Construct.e_isLocal
       Construct.e_url Construct.e_port Construct.e_locals Construct.pathname
       Construct.c_error Construct.c_status Construct.c_data] in *.
  rewrite !slice_last in *. split; [|exact H].
  destruct (negb app); [discriminate H|].
  destruct (if negb isLocal then _ else _) as [address|]; [|discriminate H].
  cbn [Construct.pathname Construct.e_locals] in H.
  destruct locals as [l|]; [|discriminate H].
  destruct (Construct.l_remote l); [|discriminate H].
  destruct (Construct.l_pathname l); [|discriminate H].
  injection H as <-. reflexivity.
Qed.

Lemma construct_cuts_service_url_witness :
  Client._servUrl
    (Client.mkClient (Node.mkUrl "http://stock-server.example.co" None None None "")
       Stub.local None None Stub.handlers) =
    Node.mkUrl "http://stock-server.example.co" None None None "" /\
  Construct.create (fun s => Node.mkUrl s None None None "") (fun _ => []) Stub.handlers
    (Construct.mkConfig true
       (Some (Construct.mkEnv (Some ("http://stock-server.example.co" ++ String "/" ""))
                true None 8080
                (Some (Construct.mkLocals (Some "/client")
                         (Some (Construct.mkRemote None None))))))
       None None None) =
  Normal (Client.mkClient (Node.mkUrl "http://stock-server.example.co" None None None "")
            Stub.local None None Stub.handlers).
Proof.
  exact (construct_cuts_service_url (fun s => Node.mkUrl s None None None "")
           (fun _ => []) Stub.handlers
           true true None 8080
           (Some (Construct.mkLocals (Some "/client")
                    (Some (Construct.mkRemote None None))))
           None None None
           "http://stock-server.example.co" "m"%char "/"%char
           (Client.mkClient (Node.mkUrl "http://stock-server.example.co" None None None "")
              Stub.local None None Stub.handlers)
           eq_refl).
Defined.



(** X18: each handler given in the configuration is the one its endpoint
    calls, and each one left out is replaced by the default one,
    independently of the other two. *)
Theorem construct_handlers
        (moment : string -> Moment) (from_base64 : string -> Buffer)
        (parse : string -> Node.Url) (parse_fields : string -> list (string * JSON))
        (defaults : Client.Handlers) (config : Construct.Config) (c : Client.Instance)
        (dreq : Client.Req Data.Wire) (sreq : Client.Req (option string)) :
  Construct.create parse parse_fields defaults config = Normal c ->
  Client.handle moment from_base64 c (Client.PostData dreq) =
    Client.Respond 200 Client.success ::
    Client.invoke
      (match Construct.c_data config with
       | Some h => h
       | None => Client.data defaults
       end)
      (fun f => Client.OnData f (Data.new moment from_base64 (Client.body dreq))
                              (Client.ip dreq)) /\
  Client.handle moment from_base64 c (Client.PostSignal sreq) =
    Client.Respond 200 Client.success ::
    Client.invoke
      (match Construct.c_status config with
       | Some h => h
       | None => Client.status defaults
       end)
      (fun f => Client.OnStatus f (Client.body sreq) (Client.ip sreq)) /\
  Client.error (Client._handlers c) =
    match Construct.c_error config with
    | Some h => h
    | None => Client.error defaults
    end.
Proof.
  unfold Construct.create. destruct (Construct.c_app config); [|discriminate].
  cbn [negb].
  destruct (Construct.c_env config) as [env|]; [|discriminate].
  destruct (Construct.e_serviceURL env); [|discriminate].
  destruct (if negb (Construct.e_isLocal env) then _ else _) as [address|];
    [|discriminate].
  destruct (Construct.e_locals env) as [l|]; [|discriminate].
  destruct (Construct.l_remote l); [|discriminate].
  destruct (Construct.l_pathname l); [|discriminate].
  intros H. injection H as <-. repeat split.
Qed.

Lemma construct_handlers_witness :
  Client.handle Stub.moment Stub.from_base64
    (Client.mkClient (Node.mkUrl "http://stock-server.example.com" None None None "")
       [("protocol", JString "http:"); ("port", JNumber 8080);
        ("pathname", JString "/client")]
       None None (Client.mkHandlers (Function 1) (Function 2) (Function 42)))
    (Client.PostSignal (Client.mkReq "10.0.0.1" (Some "start"))) =
  [Client.Respond 200 Client.success; Client.OnStatus 2 (Some "start") "10.0.0.1"].
Proof.
  exact (proj1 (proj2
           (construct_handlers Stub.moment Stub.from_base64
              (fun s => Node.mkUrl s None None None "") (fun _ => []) Stub.handlers
              (Construct.complete "http://stock-server.example.com/"
                                  (Some (Function 42)))
              _
              (Client.mkReq "10.0.0.1" (Data.mkWire "" [] ""))
              (Client.mkReq "10.0.0.1" (Some "start"))
              eq_refl))).
Defined.

(** X19: the callback of the default data handler reads payload.length
    without looking at the error.  When the decompression of a push fails
    the callback is called with the error and no payload, and throws a
    TypeError instead of reporting the error; when the push decodes, the
    callback logs the length of the value, or throws if the value is
    null. *)
Theorem default_data_handler
        (moment : string -> Moment) (from_base64 : string -> Buffer)
        (gunzip : Buffer -> JsError + Buffer) (JSON_parse : string -> JsError + JSON)
        (json : Data.Wire) (cb : nat) (ip : string) :
  let b := from_base64 (Data.w_payload json) in
  let seen :=
    map (Defaults.at_event ip)
        (Data.log (Data.run gunzip JSON_parse [Data.Call (Function cb); Data.Done 0]
                     (Data.init moment from_base64 json))) in
  match gunzip b with
  | inl err =>
    seen = [None;
            Some (Abrupt (TypeError "Cannot read property 'length' of undefined"))]
  | inr out =>
    match JSON_parse (toString_ascii out) with
    | inl e => seen = [None; None]
    | inr JNull =>
      seen = [None; Some (Abrupt (TypeError "Cannot read property 'length' of null"))]
    | inr v => seen = [None; Some (Normal (Defaults.LogRows ip v))]
    end
  end.
Proof.
  unfold Data.run. simpl. unfold Data.gunzip_done. simpl.
  destruct (gunzip (from_base64 (Data.w_payload json))) as [err|out]; [reflexivity|].
  destruct (JSON_parse (toString_ascii out)) as [e|v]; [reflexivity|].
  destruct v; reflexivity.
Qed.
